(** * make-index.py: a shallow embedding of the snapshot index generator

    The script [scripts/make-index.py] loads the build records kept in
    [index.json], optionally appends a new record given on the command line,
    deletes the GitHub releases of records beyond the retention count,
    fetches the builder container image URLs, renders [index.html] from a
    Jinja template and writes the records back to [index.json].

    The development models the script as one computation in a small
    state-and-exception monad over a [World] that holds the two output files,
    the log of HTTP requests issued and the lines printed.  The remote API is a
    function from requests to responses; [dateutil]'s date parser is a
    parameter of the section. *)

From Stdlib Require Import String Ascii List ZArith Lia Bool.
Import ListNotations.
Open Scope list_scope.
Open Scope string_scope.
Set Warnings "-register-all".

(** ** Python helpers *)

Module Py.

(** [s.split(sep)] for a one-character separator: every occurrence cuts,
    empty pieces are kept, and the result is never empty. *)
Fixpoint split (sep : ascii) (s : string) : list string :=
  match s with
  | EmptyString => [EmptyString]
  | String c rest =>
      let parts := split sep rest in
      if Ascii.eqb c sep then EmptyString :: parts
      else match parts with
           | p :: ps => String c p :: ps
           | [] => [String c EmptyString]
           end
  end.

(** [s[:n]] on a string. *)
Definition take (n : nat) (s : string) : string := substring 0 n s.

(** Truthiness of an optional string argument ([None] or a [str]). *)
Definition truthy (o : option string) : bool :=
  match o with
  | Some s => negb (String.eqb s "")
  | None => false
  end.

(** Normalisation of a slice bound [i] against a sequence of length [n]:
    a negative bound counts from the end and is clamped at 0, a
    non-negative one is clamped at [n]. *)
Definition slice_index (n : nat) (i : Z) : nat :=
  if (i <? 0)%Z then Z.to_nat (Z.max 0 (Z.of_nat n + i))
  else Nat.min (Z.to_nat i) n.

(** [l[:i]] and [l[i:]]. *)
Definition slice_to {A} (l : list A) (i : Z) : list A :=
  firstn (slice_index (length l) i) l.
Definition slice_from {A} (l : list A) (i : Z) : list A :=
  skipn (slice_index (length l) i) l.

(** [str(n)] of a Python int. *)
Fixpoint digits (fuel : nat) (n : N) (acc : string) : string :=
  match fuel with
  | O => acc
  | S f =>
      let d := N.modulo n 10 in
      let acc' := String (ascii_of_N (48 + d)) acc in
      if (n <? 10)%N then acc' else digits f (N.div n 10) acc'
  end.
Definition str_of_Z (z : Z) : string :=
  let s := digits 64 (Z.to_N (Z.abs z)) EmptyString in
  if (z <? 0)%Z then "-" ++ s else s.

End Py.

(** The template text below writes the double quote of the HTML source as a
    backquote; [dq] puts the double quotes back (the template contains no
    backquote of its own). *)
Fixpoint dq (s : string) : string :=
  match s with
  | EmptyString => EmptyString
  | String c rest =>
      String (if Ascii.eqb c "`"%char then ascii_of_nat 34 else c) (dq rest)
  end.

(** ** JSON values as returned by [resp.json()] *)

Inductive Json : Type :=
| JNull
| JBool (b : bool)
| JNum (z : Z)
| JStr (s : string)
| JArr (xs : list Json)
| JObj (kvs : list (string * Json)).

(** The exceptions the script can raise along the paths modelled here. *)
Inductive Exn : Type :=
| KeyError (k : string)
| ValueError
| TypeError
| ArgumentError (msg : string)
| HTTPError (status : Z)
| ParserError
| UndefinedError.

Inductive Result (A : Type) : Type :=
| Ok (a : A)
| Err (e : Exn).
Arguments Ok {A} a.
Arguments Err {A} e.

(** [d[k]] on a decoded JSON value: a dict gives its (last) binding of [k],
    a missing key raises [KeyError], any other value a [TypeError]. *)
Fixpoint assoc_last (k : string) (kvs : list (string * Json)) : option Json :=
  match kvs with
  | [] => None
  | (k', v) :: rest =>
      match assoc_last k rest with
      | Some w => Some w
      | None => if String.eqb k k' then Some v else None
      end
  end.

Definition getitem (j : Json) (k : string) : Result Json :=
  match j with
  | JObj kvs => match assoc_last k kvs with Some v => Ok v | None => Err (KeyError k) end
  | _ => Err TypeError
  end.

(** [for x in j]: a list gives its items, a dict its keys, a string its
    characters; other values are not iterable. *)
Fixpoint chars (s : string) : list Json :=
  match s with
  | EmptyString => []
  | String c rest => JStr (String c EmptyString) :: chars rest
  end.

Definition py_iter (j : Json) : Result (list Json) :=
  match j with
  | JArr xs => Ok xs
  | JObj kvs => Ok (map (fun kv => JStr (fst kv)) kvs)
  | JStr s => Ok (chars s)
  | _ => Err TypeError
  end.

(** [str(v)] (and f-string formatting) of a decoded JSON value; the [repr]
    of strings nested in lists and dicts is written without escapes. *)
Fixpoint py_repr (j : Json) : string :=
  match j with
  | JNull => "None"
  | JBool true => "True"
  | JBool false => "False"
  | JNum z => Py.str_of_Z z
  | JStr s => "'" ++ s ++ "'"
  | JArr xs =>
      "[" ++ (fix go (xs : list Json) : string :=
                match xs with
                | [] => ""
                | [x] => py_repr x
                | x :: rest => py_repr x ++ ", " ++ go rest
                end) xs ++ "]"
  | JObj kvs =>
      "{" ++ (fix go (kvs : list (string * Json)) : string :=
                match kvs with
                | [] => ""
                | [(k, v)] => "'" ++ k ++ "': " ++ py_repr v
                | (k, v) :: rest => "'" ++ k ++ "': " ++ py_repr v ++ ", " ++ go rest
                end) kvs ++ "}"
  end.

Definition py_str (j : Json) : string :=
  match j with
  | JStr s => s
  | _ => py_repr j
  end.

(** ** Data model *)

(** One element of the [builds] list of [index.json].  [win32] is the
    optional key read with [record.get('win32', False)]; the new record built
    by the script does not carry it. *)
Record build := mkBuild {
  pkgver : string;
  date : string;
  linux_builder : string;
  windows_builder : string;
  openslide : string;
  openslide_java : string;
  openslide_winbuild : string;
  win32 : option bool
}.

(** The state file [index.json]: [JAbsent] when [open] raises an [IOError]
    (missing or unreadable), [JBadJson] when [json.load] fails, [JNoBuilds]
    when the object has no [builds] key, [JState] otherwise. *)
Inductive JsonFile : Type :=
| JAbsent
| JBadJson
| JNoBuilds
| JState (builds : list build) (last_update : Z).

Definition headers_t := list (string * string).

Inductive Req : Type :=
| GET (url : string) (headers : headers_t)
| DELETE (url : string) (headers : headers_t).

Record Resp := mkResp { status_code : Z; body : option Json }.

(** The command line after [parser.parse_args()]; an option not given is
    [None].  ([--dir] only locates the two files of the [World].) *)
Record Args := mkArgs {
  a_pkgver : option string;
  a_linux_builder : option string;
  a_windows_builder : option string;
  a_openslide : option string;
  a_java : option string;
  a_winbuild : option string
}.

(** Everything the script changes: the two files of the website directory,
    the HTTP requests sent (in order) and the lines printed. *)
Record World := mkWorld {
  w_json : JsonFile;
  w_html : option string;
  w_reqs : list Req;
  w_stdout : list string
}.

Definition set_json (j : JsonFile) (w : World) : World :=
  mkWorld j (w_html w) (w_reqs w) (w_stdout w).
Definition set_html (h : string) (w : World) : World :=
  mkWorld (w_json w) (Some h) (w_reqs w) (w_stdout w).
Definition log_req (q : Req) (w : World) : World :=
  mkWorld (w_json w) (w_html w) (w_reqs w ++ [q])%list (w_stdout w).
Definition log_line (s : string) (w : World) : World :=
  mkWorld (w_json w) (w_html w) (w_reqs w) (w_stdout w ++ [s])%list.

(** ** A state-and-exception monad

    An exception stops the computation and keeps the effects performed so
    far, as a Python exception does. *)

Definition M (A : Type) : Type := World -> Result A * World.

Definition ret {A} (a : A) : M A := fun w => (Ok a, w).
Definition raise {A} (e : Exn) : M A := fun w => (Err e, w).
Definition bind {A B} (m : M A) (k : A -> M B) : M B :=
  fun w => match m w with
           | (Ok a, w') => k a w'
           | (Err e, w') => (Err e, w')
           end.
Definition lift {A} (r : Result A) : M A := fun w => (r, w).

Notation "x <- m ;; k" := (bind m (fun x => k))
  (at level 61, m at next level, right associativity).
Notation "m ;;; k" := (bind m (fun _ => k))
  (at level 61, right associativity).

(** [for x in xs: body(x)] *)
Fixpoint for_each {A} (xs : list A) (body : A -> M unit) : M unit :=
  match xs with
  | [] => ret tt
  | x :: rest => body x ;;; for_each rest body
  end.

Definition print (s : string) : M unit := fun w => (Ok tt, log_line s w).

(** ** The Jinja template

    With the default [Environment] ([autoescape], [trim_blocks] and
    [lstrip_blocks] off) a tag is replaced by nothing and the text around it
    is kept as written; [keep_trailing_newline] is off, so the last newline of
    the template source is dropped.  Rendering yields one chunk per text run
    and per [{{ ... }}] expression (Jinja 3 code generation); a chunk that
    raises is [None]. *)

Definition RETAIN : Z := 30.

(** The dict passed to the template as [rows] has these keys. *)
Record row := mkRow {
  r_date : string;
  r_pkgver : string;
  r_linux_builder : string;
  r_windows_builder : string;
  r_openslide_prev : option string;
  r_openslide_cur : string;
  r_java_prev : option string;
  r_java_cur : string;
  r_winbuild_prev : option string;
  r_winbuild_cur : string;
  r_win32 : bool
}.

(** [container_images]: a dict from image reference to [html_url]; an
    assignment is pushed in front, so a lookup sees the last one. *)
Definition images := list (string * Json).

Definition images_get (ci : images) (k : string) : option Json :=
  match find (fun kv => String.eqb (fst kv) k) ci with
  | Some (_, v) => Some v
  | None => None
  end.

(** [{% macro revision_link(repo, prev, cur) %}] *)
Definition revision_link (repo : string) (prev : option string) (cur : string)
    : string :=
  "
  " ++
  (match prev with
   | Some p =>
       if Py.truthy prev then
         dq "
    <a href=`https://github.com/openslide/" ++ repo ++ "/compare/" ++ Py.take 8 p
         ++ "..." ++ Py.take 8 cur ++ dq "`>
      " ++ Py.take 8 cur ++ "
    </a>
  "
       else "
    " ++ Py.take 8 cur ++ "
  "
   | None => "
    " ++ Py.take 8 cur ++ "
  "
   end) ++ "
".

(** [builder.split('@')[1].split(':')[1][:8]]: an index out of range gives
    Jinja's [Undefined], and the next attribute or item access on it raises
    [UndefinedError]. *)
Definition builder_short (builder : string) : option string :=
  match nth_error (Py.split "@" builder) 1 with
  | Some after_at =>
      match nth_error (Py.split ":" after_at) 1 with
      | Some digest => Some (Py.take 8 digest)
      | None => None
      end
  | None => None
  end.

(** [{% macro builder_link(builder) %}]; [None] when it raises. *)
Definition builder_link (ci : images) (builder : string) : option string :=
  match builder_short builder with
  | None => None
  | Some short =>
      Some ("
  " ++ "
  " ++
      (match images_get ci builder with
       | Some url => dq "
    <a href=`" ++ py_str url ++ dq "`>
      " ++ short ++ "
    </a>
  "
       | None => "
    " ++ short ++ "
  "
       end) ++ "
")
  end.

Definition page_head : string := dq "<!doctype html>

<style type=`text/css`>
  table {
    margin-left: 20px;
    border-collapse: collapse;
  }
  th.repo {
    padding-right: 1em;
  }
  td {
    padding-right: 20px;
  }
  td.date {
    padding-left: 5px;
  }
  td.revision {
    font-family: monospace;
  }
  td.spacer {
    padding-right: 25px;
  }
  td.win64 {
    padding-right: 5px;
  }
  tr {
    height: 2em;
  }
  tr:nth-child(2n) {
    background-color: #e8e8e8;
  }
</style>

<title>OpenSlide development builds</title>
<h1>OpenSlide development builds</h1>

<p>Here are the ".

(** The text after [{{ retain }}] up to [{% for row in rows %}]; the two
    macro definitions in it produce no output. *)
Definition table_head : string :=
  " newest successful nightly builds.
Older builds are automatically deleted.
Builds are skipped if nothing has changed.

" ++ "

" ++ dq "

<table>
  <tr>
    <th>Date</th>
    <th class=`repo`>openslide</th>
    <th class=`repo`>openslide-java</th>
    <th class=`repo`>openslide-winbuild</th>
    <th class=`repo`>linux-builder</th>
    <th class=`repo`>winbuild-builder</th>
    <th></th>
    <th colspan=`3`>Downloads</th>
  </tr>
  ".

Definition download_url : string :=
  "https://github.com/openslide/builds/releases/download/windows-".

Definition td_next : string := dq "
      </td>
      <td class=`revision`>
        ".

(** The body of [{% for row in rows %}] for one row. *)
Definition row_chunks (ci : images) (row : row) : list (option string) :=
  [ Some (dq "
    <tr>
      <td class=`date`>");
    Some (r_date row);
    Some (dq "</td>
      <td class=`revision`>
        ");
    Some (revision_link "openslide" (r_openslide_prev row) (r_openslide_cur row));
    Some td_next;
    Some (revision_link "openslide-java" (r_java_prev row) (r_java_cur row));
    Some td_next;
    Some (revision_link "openslide-winbuild" (r_winbuild_prev row) (r_winbuild_cur row));
    Some td_next;
    builder_link ci (r_linux_builder row);
    Some td_next;
    builder_link ci (r_windows_builder row);
    Some (dq "
      </td>
      <td class=`spacer`></td>
      <td class=`source`>
        <a href=`" ++ download_url);
    Some (r_pkgver row);
    Some "/openslide-winbuild-";
    Some (r_pkgver row);
    Some (dq ".zip`>
          Source
        </a>
      </td>
      <td class=`win32`>
        ") ] ++
  (if r_win32 row then
     [ Some (dq "
          <a href=`" ++ download_url);
       Some (r_pkgver row);
       Some "/openslide-win32-";
       Some (r_pkgver row);
       Some (dq ".zip`>
            Windows 32-bit
          </a>
        ") ]
   else []) ++
  [ Some (dq "
      </td>
      <td class=`win64`>
        <a href=`" ++ download_url);
    Some (r_pkgver row);
    Some "/openslide-win64-";
    Some (r_pkgver row);
    Some (dq ".zip`>
          Windows 64-bit
        </a>
      </td>
    </tr>
  ") ].

(** [</table>] with the template's final newline dropped. *)
Definition page_foot : string := "
</table>".

(** [template.stream({'container_images': ci, 'retain': retain, 'rows': rows})] *)
Definition render (ci : images) (retain : Z) (rows : list row)
    : list (option string) :=
  [Some page_head; Some (Py.str_of_Z retain); Some table_head]
  ++ flat_map (row_chunks ci) rows
  ++ [Some page_foot].

(** [.dump(fh)]: the chunks are written as they are produced; the text
    written and whether the stream ran to its end. *)
Fixpoint dump (chunks : list (option string)) : string * bool :=
  match chunks with
  | [] => ("", true)
  | Some s :: rest => let (t, ok) := dump rest in (s ++ t, ok)
  | None :: _ => ("", false)
  end.

(** ** The rows passed to the template (lines 233-255) *)

(** [prev(key)]: the previous record's value when there is a previous
    record (a non-empty dict, so truthy) and the value changed. *)
Definition prev (key : build -> string) (prev_record : option build)
    (record : build) : option string :=
  match prev_record with
  | Some p => if negb (String.eqb (key record) (key p)) then Some (key p) else None
  | None => None
  end.

Definition row_of (prev_record : option build) (record : build) : row :=
  {| r_date := date record;
     r_pkgver := pkgver record;
     r_linux_builder := linux_builder record;
     r_windows_builder := windows_builder record;
     r_openslide_prev := prev openslide prev_record record;
     r_openslide_cur := openslide record;
     r_java_prev := prev openslide_java prev_record record;
     r_java_cur := openslide_java record;
     r_winbuild_prev := prev openslide_winbuild prev_record record;
     r_winbuild_cur := openslide_winbuild record;
     r_win32 := match win32 record with Some b => b | None => false end |}.

Fixpoint rows_from (prev_record : option build) (records : list build) : list row :=
  match records with
  | [] => []
  | record :: rest => row_of prev_record record :: rows_from (Some record) rest
  end.

(** [rows] as built by the loop, starting with [prev_record = None]. *)
Definition mk_rows (records : list build) : list row := rows_from None records.

(** ** The script *)

Definition REPO : string := "openslide/builds".
Definition CONTAINERS : list string :=
  ["openslide/linux-builder"; "openslide/winbuild-builder"].

Definition headers (token : string) : headers_t :=
  [("Accept", "application/vnd.github.v3+json");
   ("Authorization", "token " ++ token)].

Definition tag_url (ver : string) : string :=
  "https://api.github.com/repos/" ++ REPO ++ "/releases/tags/windows-" ++ ver.
Definition release_url (id : string) : string :=
  "https://api.github.com/repos/" ++ REPO ++ "/releases/" ++ id.
Definition versions_url (org name : string) : string :=
  "https://api.github.com/orgs/" ++ org ++ "/packages/container/" ++ name
  ++ "/versions?per_page=100".

Definition opt_val (o : option string) : string :=
  match o with Some s => s | None => "" end.

(** [for x in xs: acc = body(acc, x)], the loop that fills a dict. *)
Fixpoint fold_m {A B} (xs : list A) (acc : B) (body : B -> A -> M B) : M B :=
  match xs with
  | [] => ret acc
  | x :: rest => acc' <- body acc x ;; fold_m rest acc' body
  end.

(** [os.environ['GITHUB_TOKEN']] *)
Definition get_token (env : option string) : M string :=
  match env with
  | Some t => ret t
  | None => raise (KeyError "GITHUB_TOKEN")
  end.

(** Lines 174-178: [json.load(fh)['builds']], or [[]] on [IOError]. *)
Definition load_json (f : JsonFile) : Result (list build) :=
  match f with
  | JAbsent => Ok []
  | JBadJson => Err ValueError
  | JNoBuilds => Err (KeyError "builds")
  | JState builds _ => Ok builds
  end.

Definition load_records : M (list build) := fun w => (load_json (w_json w), w).

Section Script.

(** The remote API: the response the server gives to each request. *)
Variable net : Req -> Resp.
(** [dateutil.parser.parse(s).date().isoformat()] on the day of the run,
    [None] when it raises; dateutil takes the fields [s] lacks from the
    current date, so two runs on different days may use different parsers. *)
Variable parse_date : string -> option string.

Definition incomplete_msg : string := "New build must be completely specified".

(** Lines 181-196: the new record, appended to [records] (a pure step: the
    list is the one just loaded and nothing else holds it). *)
Definition add_record (args : Args) (records : list build) : Result (list build) :=
  if Py.truthy (a_pkgver args) then
    if negb (Py.truthy (a_linux_builder args)) || negb (Py.truthy (a_windows_builder args))
       || negb (Py.truthy (a_openslide args)) || negb (Py.truthy (a_java args))
       || negb (Py.truthy (a_winbuild args))
    then Err (ArgumentError incomplete_msg)
    else
      let ver := opt_val (a_pkgver args) in
      match parse_date (hd "" (Py.split "-" ver)) with
      | None => Err ParserError
      | Some d =>
          Ok (records ++
              [{| pkgver := ver;
                  date := d;
                  linux_builder := opt_val (a_linux_builder args);
                  windows_builder := opt_val (a_windows_builder args);
                  openslide := opt_val (a_openslide args);
                  openslide_java := opt_val (a_java args);
                  openslide_winbuild := opt_val (a_winbuild args);
                  win32 := None |}])%list
      end
  else Ok records.

(** [requests.get] / [requests.delete]: the request is sent (logged) and the
    server's response returned; no status is checked here. *)
Definition request (q : Req) : M Resp := fun w => (Ok (net q), log_req q w).

Definition is_error_status (s : Z) : bool := (400 <=? s)%Z && (s <? 600)%Z.

(** [resp.raise_for_status()]: raises for a 4xx or 5xx status. *)
Definition raise_for_status (r : Resp) : M unit :=
  if is_error_status (status_code r) then raise (HTTPError (status_code r))
  else ret tt.

(** [resp.json()] *)
Definition resp_json (r : Resp) : M Json :=
  match body r with
  | Some j => ret j
  | None => raise ValueError
  end.

(** One iteration of the loop of lines 203-217. *)
Definition prune_one (hdrs : headers_t) (record : build) : M unit :=
  print ("Deleting " ++ pkgver record ++ "...") ;;;
  resp <- request (GET (tag_url (pkgver record)) hdrs) ;;
  if (status_code resp =? 404)%Z then print "...already gone"
  else
    (raise_for_status resp ;;;
     release <- resp_json resp ;;
     id <- lift (getitem release "id") ;;
     resp2 <- request (DELETE (release_url (py_str id)) hdrs) ;;
     raise_for_status resp2).

Definition prune (hdrs : headers_t) (records : list build) : M unit :=
  for_each (Py.slice_to records (- RETAIN)) (prune_one hdrs).

(** One iteration of the loop of lines 222-231. *)
Definition fetch_container (hdrs : headers_t) (ci : images) (container : string)
    : M images :=
  match Py.split "/" container with
  | [container_org; container_name] =>
      resp <- request (GET (versions_url container_org container_name) hdrs) ;;
      raise_for_status resp ;;;
      j <- resp_json resp ;;
      imgs <- lift (py_iter j) ;;
      fold_m imgs ci (fun ci image =>
        name <- lift (getitem image "name") ;;
        let ref := "ghcr.io/" ++ container_org ++ "/" ++ container_name ++ "@"
                   ++ py_str name in
        url <- lift (getitem image "html_url") ;;
        ret ((ref, url) :: ci))
  | _ => raise ValueError
  end.

Definition fetch_images (hdrs : headers_t) : M images :=
  fold_m CONTAINERS [] (fetch_container hdrs).

Definition nl : string := String (ascii_of_nat 10) EmptyString.

(** Lines 258-264: [open(..., 'w')] truncates, the stream is dumped, then a
    newline is written; a failing chunk leaves what was written so far. *)
Definition write_html (chunks : list (option string)) : M unit :=
  fun w => let (t, ok) := dump chunks in
           if ok then (Ok tt, set_html (t ++ nl) w)
           else (Err UndefinedError, set_html t w).

(** Lines 267-273. *)
Definition write_json (records : list build) (now : Z) : M unit :=
  fun w => (Ok tt, set_json (JState records now) w).

(** Lines 180-273: everything after the records are loaded. *)
Definition after_load (args : Args) (token : string) (records : list build)
    (now : Z) : M unit :=
  records <- lift (add_record args records) ;;
  let hdrs := headers token in
  prune hdrs records ;;;
  let records := Py.slice_from records (- RETAIN) in
  ci <- fetch_images hdrs ;;
  let rows := mk_rows records in
  write_html (render ci RETAIN (rev rows)) ;;;
  write_json records now.

(** [main()]: [env] is [GITHUB_TOKEN] in the environment, [now] the
    integer timestamp of [datetime.now()]. *)
Definition main (args : Args) (env : option string) (now : Z) : M unit :=
  token <- get_token env ;;
  records <- load_records ;;
  after_load args token records now.

End Script.

(** ** Reading the request log *)

Definition tag_prefix : string :=
  "https://api.github.com/repos/" ++ REPO ++ "/releases/tags/".

(** A response the script deliberately survives: a 404 to a release-tag
    lookup of the prune loop ("...already gone"). *)
Definition recovered (net : Req -> Resp) (q : Req) : bool :=
  match q with
  | GET u _ => String.prefix tag_prefix u && (status_code (net q) =? 404)%Z
  | DELETE _ _ => false
  end.

(** A 4xx or 5xx response other than the recovered one. *)
Definition unrecovered_error (net : Req -> Resp) (q : Req) : bool :=
  is_error_status (status_code (net q)) && negb (recovered net q).

(** The requests of the prune loop as the amended C5 describes them: for
    each record but the newest [RETAIN], in order, the tag lookup, then, unless
    it answered 404, the deletion of the release whose id it returned. *)
Definition prune_requests_one (net : Req -> Resp) (hdrs : headers_t) (r : build)
    : list Req :=
  let q := GET (tag_url (pkgver r)) hdrs in
  q :: (if (status_code (net q) =? 404)%Z then []
        else match body (net q) with
             | Some j =>
                 match getitem j "id" with
                 | Ok id => [DELETE (release_url (py_str id)) hdrs]
                 | Err _ => []
                 end
             | None => []
             end).

Definition prune_requests_expected (net : Req -> Resp) (hdrs : headers_t)
    (records : list build) : list Req :=
  flat_map (prune_requests_one net hdrs) (firstn (length records - 30) records).

(** [m] leaves both files alone, only appends to the request log, and when
    one of the requests it sends gets an unrecovered error response, that
    request is its last one and [m] raises the matching [HTTPError]. *)
Definition stops (net : Req -> Resp) {A} (m : M A) : Prop :=
  forall w0 r w1, m w0 = (r, w1) ->
    w_json w1 = w_json w0 /\ w_html w1 = w_html w0 /\
    exists new, w_reqs w1 = (w_reqs w0 ++ new)%list /\
      forall q, In q new -> unrecovered_error net q = true ->
        r = Err (HTTPError (status_code (net q))) /\ exists pre, new = (pre ++ [q])%list.

(** The same, with the files left alone only on the error path. *)
Definition halts (net : Req -> Resp) {A} (m : M A) : Prop :=
  forall w0 r w1, m w0 = (r, w1) ->
    (exists new, w_reqs w1 = (w_reqs w0 ++ new)%list) /\
    forall new q, w_reqs w1 = (w_reqs w0 ++ new)%list -> In q new ->
      unrecovered_error net q = true ->
      r = Err (HTTPError (status_code (net q))) /\ (exists pre, new = (pre ++ [q])%list) /\
      w_json w1 = w_json w0 /\ w_html w1 = w_html w0.

Definition no_requests {A} (m : M A) : Prop :=
  forall w0 r w1, m w0 = (r, w1) -> w_reqs w1 = w_reqs w0.

(** [c not in s] *)
Definition lacks (c : ascii) (s : string) : bool :=
  negb (existsb (Ascii.eqb c) (list_ascii_of_string s)).

(** A chunk of the template stream that does not raise. *)
Definition chunk_ok (c : option string) : bool :=
  match c with Some _ => true | None => false end.

(** [m] never changes [index.json]. *)
Definition json_stable {A} (m : M A) : Prop :=
  forall w0 r w1, m w0 = (r, w1) -> w_json w1 = w_json w0.

(** [m] leaves [index.json] as it was whenever it raises. *)
Definition json_kept_on_err {A} (m : M A) : Prop :=
  forall w0 e w1, m w0 = (Err e, w1) -> w_json w1 = w_json w0.

(** [(ref, url)] is an entry the container listing of the API gave: the
    listing of one of [CONTAINERS] is a JSON array holding an image whose
    [name] makes [ref] and whose [html_url] is [url]. *)
Definition from_api (net : Req -> Resp) (hdrs : headers_t) (kv : string * Json) : Prop :=
  exists c org name j imgs image nm,
    In c CONTAINERS /\ Py.split "/" c = [org; name] /\
    body (net (GET (versions_url org name) hdrs)) = Some j /\
    py_iter j = Ok imgs /\ In image imgs /\
    getitem image "name" = Ok nm /\ getitem image "html_url" = Ok (snd kv) /\
    fst kv = "ghcr.io/" ++ org ++ "/" ++ name ++ "@" ++ py_str nm.

(** [m] never raises Jinja's [UndefinedError]. *)
Definition no_undefined {A} (m : M A) : Prop :=
  forall w0 e w1, m w0 = (Err e, w1) -> e <> UndefinedError.

(** [m] prints nothing. *)
Definition no_output {A} (m : M A) : Prop :=
  forall w0 r w1, m w0 = (r, w1) -> w_stdout w1 = w_stdout w0.

(** The lines the prune loop prints for one expired record. *)
Definition prune_log_one (net : Req -> Resp) (hdrs : headers_t) (r : build)
    : list string :=
  ("Deleting " ++ pkgver r ++ "...")
  :: (if (status_code (net (GET (tag_url (pkgver r)) hdrs)) =? 404)%Z
      then ["...already gone"] else []).

(** The result of [m] does not depend on the world it starts from. *)
Definition pure_res {A} (m : M A) : Prop :=
  forall w w', fst (m w) = fst (m w').

(** ** Sample inputs, used by the witnesses and counterexamples below *)

Module Sample.

Definition linux_ref : string := "ghcr.io/openslide/linux-builder@sha256:0123456789abcdef".
Definition windows_ref : string := "ghcr.io/openslide/winbuild-builder@sha256:fedcba9876543210".

Definition bld (v : string) : build :=
  mkBuild v "2024-01-01" linux_ref windows_ref ("os" ++ v) "jv" "wb" None.

(** Thirty records [1] .. [30], newest last. *)
Definition thirty : list build := map (fun n => bld (Py.str_of_Z (Z.of_nat n))) (seq 1 30).

(** The release of build [0] exists with id 7, every other tag is gone; the
    Linux builder has one image version, the Windows builder none. *)
Definition net_ok (q : Req) : Resp :=
  match q with
  | GET u _ =>
      if String.eqb u (tag_url "0") then mkResp 200 (Some (JObj [("id", JNum 7)]))
      else if String.eqb u (versions_url "openslide" "linux-builder") then
        mkResp 200 (Some (JArr [JObj [("name", JStr "sha256:0123456789abcdef");
                                      ("html_url", JStr "https://github.com/img")]]))
      else if String.eqb u (versions_url "openslide" "winbuild-builder") then
        mkResp 200 (Some (JArr []))
      else mkResp 404 None
  | DELETE _ _ => mkResp 204 None
  end.

(** Every lookup answers 404. *)
Definition net_404 (q : Req) : Resp := mkResp 404 None.

(** A date parser that accepts every string and returns it. *)
Definition date_id (s : string) : option string := Some s.

Definition no_args : Args := mkArgs None None None None None None.
Definition new_args : Args :=
  mkArgs (Some "20240102-abc") (Some linux_ref) (Some windows_ref)
         (Some "aaaa") (Some "bbbb") (Some "cccc").

(** [index.json] holds 31 records, [0] the oldest. *)
Definition world31 : World := mkWorld (JState (bld "0" :: thirty) 1) None [] [].
Definition world_absent : World := mkWorld JAbsent None [] [].

(** [--pkgver] given, every companion argument missing. *)
Definition incomplete_args : Args :=
  mkArgs (Some "20240102-abc") None None None None None.

(** [index.json] exists but does not parse. *)
Definition world_badjson : World := mkWorld JBadJson None [] [].

(** [--pkgver ''] with every companion argument given. *)
Definition empty_pkgver_args : Args :=
  mkArgs (Some "") (Some linux_ref) (Some windows_ref)
         (Some "aaaa") (Some "bbbb") (Some "cccc").

(** [index.json] holds one record; the run appends [new_args]. *)
(** The same Linux builder has no listed image version. *)
Definition net_noimg (q : Req) : Resp :=
  match q with
  | GET u _ =>
      if String.eqb u (versions_url "openslide" "linux-builder") then
        mkResp 200 (Some (JArr []))
      else net_ok q
  | DELETE _ _ => net_ok q
  end.

(** The Linux builder's version list answers 500. *)
Definition net_500 (q : Req) : Resp :=
  match q with
  | GET u _ =>
      if String.eqb u (versions_url "openslide" "linux-builder") then mkResp 500 None
      else net_ok q
  | DELETE _ _ => net_ok q
  end.

Definition linux_versions_req : Req :=
  GET (versions_url "openslide" "linux-builder") (headers "t").

(** [index.json] holds 31 records, [x] the oldest; its release is gone. *)
Definition world_gone : World := mkWorld (JState (bld "x" :: thirty) 1) None [] [].
Definition run_gone := main net_ok date_id no_args (Some "t") 2 world_gone.

Definition world_empty : World := mkWorld JAbsent None [] [].

(** The image map [fetch_images] builds from [net_ok]. *)
Definition images_ok : images := [(linux_ref, JStr "https://github.com/img")].

(** A stored record whose Linux builder reference has no [@digest] part. *)
Definition bad_builder : build :=
  mkBuild "0" "2024-01-01" "ghcr.io/openslide/linux-builder" windows_ref "os" "jv" "wb" None.
Definition world_bad_builder : World := mkWorld (JState [bad_builder] 1) None [] [].
Definition run_bad_builder := main net_ok date_id no_args (Some "t") 2 world_bad_builder.

Definition world1 : World := mkWorld (JState [bld "0"] 1) None [] [].
Definition run1 := main net_ok date_id new_args (Some "t") 2 world1.

(** The record [new_args] appends with [date_id]. *)
Definition new_rec : build :=
  mkBuild "20240102-abc" "20240102" linux_ref windows_ref "aaaa" "bbbb" "cccc" None.

(** [index.json] already holds the two records [world1] ends with. *)
Definition world_kept2 : World := mkWorld (JState [bld "0"; new_rec] 1) None [] [].

(** A listing that names the same image twice, with two [html_url]s. *)
Definition img (nm url : string) : Json := JObj [("name", JStr nm); ("html_url", JStr url)].
Definition net_dup (q : Req) : Resp :=
  match q with
  | GET u _ =>
      if String.eqb u (versions_url "openslide" "linux-builder") then
        mkResp 200 (Some (JArr [img "sha256:aa" "u1"; img "sha256:aa" "u2"]))
      else mkResp 200 (Some (JArr []))
  | DELETE _ _ => mkResp 204 None
  end.

End Sample.

(** ** Generic facts about the monad *)

Lemma bind_ok_inv {A B} (m : M A) (k : A -> M B) w b w' :
  bind m k w = (Ok b, w') -> exists a w1, m w = (Ok a, w1) /\ k a w1 = (Ok b, w').
Proof.
  unfold bind. destruct (m w) as [[a|e] w1]; intros H; [eauto | discriminate].
Qed.

Lemma lift_ok_inv {A} (r : Result A) w a w' :
  lift r w = (Ok a, w') -> r = Ok a /\ w' = w.
Proof. unfold lift. intros H. inversion H. auto. Qed.

Lemma get_token_ok_inv env w t w' :
  get_token env w = (Ok t, w') -> env = Some t /\ w' = w.
Proof.
  destruct env; cbn; intros H; inversion H; auto.
Qed.

Lemma load_records_ok_inv w l w' :
  load_records w = (Ok l, w') -> load_json (w_json w) = Ok l /\ w' = w.
Proof. unfold load_records. intros H. inversion H. auto. Qed.

Lemma write_html_ok_inv chunks w w' :
  write_html chunks w = (Ok tt, w') ->
  exists t, dump chunks = (t, true) /\ w' = set_html (t ++ nl) w.
Proof.
  unfold write_html. destruct (dump chunks) as [t ok].
  destruct ok; intros H; inversion H; eauto.
Qed.

Lemma write_json_ok_inv records now w w' :
  write_json records now w = (Ok tt, w') -> w' = set_json (JState records now) w.
Proof. unfold write_json. intros H. inversion H. auto. Qed.

Ltac inv_bind H a w Hm :=
  apply bind_ok_inv in H; destruct H as (a & w & Hm & H); cbv beta in H.

(** A run that completes went through every step in order: load, append,
    prune, fetch, render, persist. *)
Lemma main_ok_inv net parse_date args env now w0 w1 :
  main net parse_date args env now w0 = (Ok tt, w1) ->
  exists token loaded records w2 w3 ci t,
    env = Some token /\
    load_json (w_json w0) = Ok loaded /\
    add_record parse_date args loaded = Ok records /\
    prune net (headers token) records w0 = (Ok tt, w2) /\
    fetch_images net (headers token) w2 = (Ok ci, w3) /\
    dump (render ci RETAIN (rev (mk_rows (Py.slice_from records (- RETAIN))))) = (t, true) /\
    w1 = set_json (JState (Py.slice_from records (- RETAIN)) now) (set_html (t ++ nl) w3).
Proof.
  unfold main, after_load. intros H.
  inv_bind H token wa Hm. apply get_token_ok_inv in Hm as [Htok ->].
  inv_bind H loaded wb Hm. apply load_records_ok_inv in Hm as [Hload ->].
  inv_bind H records wc Hm. apply lift_ok_inv in Hm as [Hadd ->].
  inv_bind H u w2 Hprune. destruct u.
  inv_bind H ci w3 Hfetch.
  inv_bind H u w4 Hm. destruct u. apply write_html_ok_inv in Hm as (t & Hdump & ->).
  apply write_json_ok_inv in H as ->.
  exists token, loaded, records, w2, w3, ci, t. repeat split; auto.
Qed.

(** ** Python slices at [-RETAIN] *)

Lemma slice_to_from {A} (l : list A) i : (Py.slice_to l i ++ Py.slice_from l i)%list = l.
Proof. unfold Py.slice_to, Py.slice_from. apply firstn_skipn. Qed.

Lemma slice_index_retain n : Py.slice_index n (- RETAIN) = n - 30.
Proof. unfold Py.slice_index, RETAIN. cbn -[Z.of_nat]. lia. Qed.

Lemma slice_from_retain_length {A} (l : list A) :
  length (Py.slice_from l (- RETAIN)) = Nat.min (length l) 30.
Proof. unfold Py.slice_from. rewrite slice_index_retain, length_skipn. lia. Qed.

Lemma slice_to_retain {A} (l : list A) :
  Py.slice_to l (- RETAIN) = firstn (length l - 30) l.
Proof. unfold Py.slice_to. now rewrite slice_index_retain. Qed.

Lemma add_record_shape parse_date args l l' :
  add_record parse_date args l = Ok l' -> l' = l \/ exists r, l' = (l ++ [r])%list.
Proof.
  unfold add_record.
  destruct (Py.truthy (a_pkgver args)); [|intros H; inversion H; auto].
  destruct (_ || _); [discriminate|].
  destruct (parse_date _); [|discriminate].
  intros H; inversion H; eauto.
Qed.

(** ** C1 *)

(** C1: after a run that reaches the end, the list written to [index.json]
    has at most [RETAIN] = 30 records, and it is the last [min n 30] records
    of the list of [n] records loaded plus the one appended, if any. *)
Theorem persisted_records_within_retention net parse_date args env now w0 w1 :
  main net parse_date args env now w0 = (Ok tt, w1) ->
  exists loaded records older kept,
    load_json (w_json w0) = Ok loaded /\
    add_record parse_date args loaded = Ok records /\
    w_json w1 = JState kept now /\
    length kept <= Z.to_nat RETAIN /\
    length kept = Nat.min (length records) (Z.to_nat RETAIN) /\
    records = (older ++ kept)%list.
Proof.
  intros H.
  destruct (main_ok_inv _ _ _ _ _ _ _ H)
    as (token & loaded & records & w2 & w3 & ci & t & _ & Hload & Hadd & _ & _ & _ & ->).
  exists loaded, records, (Py.slice_to records (- RETAIN)), (Py.slice_from records (- RETAIN)).
  rewrite slice_to_from, slice_from_retain_length.
  repeat split; auto. cbn. lia.
Qed.

Lemma persisted_records_within_retention_witness :
  Sample.run1 = (Ok tt, snd Sample.run1) /\
  exists loaded records older kept,
    load_json (w_json Sample.world1) = Ok loaded /\
    add_record Sample.date_id Sample.new_args loaded = Ok records /\
    w_json (snd Sample.run1) = JState kept 2 /\
    length kept <= Z.to_nat RETAIN /\
    length kept = Nat.min (length records) (Z.to_nat RETAIN) /\
    records = (older ++ kept)%list.
Proof.
  split.
  - vm_compute. reflexivity.
  - apply (persisted_records_within_retention Sample.net_ok Sample.date_id
             Sample.new_args (Some "t") 2 Sample.world1 (snd Sample.run1)).
    vm_compute. reflexivity.
Defined.

(** ** C3 *)

(** C3: when opening [index.json] raises an [IOError], the script goes on
    exactly as it would with an empty list of loaded records. *)
Theorem missing_state_file_is_empty net parse_date args token now w0 :
  w_json w0 = JAbsent ->
  main net parse_date args (Some token) now w0
  = after_load net parse_date args token [] now w0.
Proof.
  intros Habs. unfold main, bind, get_token, ret, load_records.
  cbn. rewrite Habs. reflexivity.
Qed.

Lemma missing_state_file_is_empty_witness :
  w_json Sample.world_absent = JAbsent /\
  main Sample.net_ok Sample.date_id Sample.no_args (Some "t") 2 Sample.world_absent
  = after_load Sample.net_ok Sample.date_id Sample.no_args "t" [] 2 Sample.world_absent.
Proof.
  split.
  - reflexivity.
  - apply missing_state_file_is_empty. reflexivity.
Defined.

(** ** C4 *)

(** C4 (counterexample): [--pkgver ''] is given together with every builder
    and commit argument, yet no record is appended: the test is on the
    truthiness of the value. *)
Lemma empty_pkgver_appends_nothing :
  a_pkgver Sample.empty_pkgver_args = Some "" /\
  add_record Sample.date_id Sample.empty_pkgver_args [Sample.bld "0"]
  = Ok [Sample.bld "0"].
Proof. split; vm_compute; reflexivity. Qed.

(** C4 (amended): with a non-empty [--pkgver], non-empty builder and commit
    arguments and a date prefix of the version that parses, exactly one record
    is appended at the end, carrying these values (and no [win32] key); with
    [--pkgver] absent or empty the loaded list is returned unchanged. *)
Theorem add_record_appends_one parse_date args records :
  (forall ver lb wb os jv wbld d,
     a_pkgver args = Some ver -> ver <> "" ->
     a_linux_builder args = Some lb -> lb <> "" ->
     a_windows_builder args = Some wb -> wb <> "" ->
     a_openslide args = Some os -> os <> "" ->
     a_java args = Some jv -> jv <> "" ->
     a_winbuild args = Some wbld -> wbld <> "" ->
     parse_date (hd "" (Py.split "-" ver)) = Some d ->
     add_record parse_date args records
     = Ok (records ++ [mkBuild ver d lb wb os jv wbld None])%list) /\
  (Py.truthy (a_pkgver args) = false ->
     add_record parse_date args records = Ok records).
Proof.
  split.
  - intros ver lb wb os jv wbld d Hv Hv' Hl Hl' Hw Hw' Ho Ho' Hj Hj' Hb Hb' Hd.
    unfold add_record, Py.truthy.
    rewrite Hv, Hl, Hw, Ho, Hj, Hb.
    apply String.eqb_neq in Hv', Hl', Hw', Ho', Hj', Hb'.
    rewrite Hv', Hl', Hw', Ho', Hj', Hb'. cbn.
    rewrite Hd. reflexivity.
  - unfold add_record. intros ->. reflexivity.
Qed.

Lemma add_record_appends_one_witness :
  add_record Sample.date_id Sample.new_args [Sample.bld "0"]
  = Ok [Sample.bld "0"; mkBuild "20240102-abc" "20240102" Sample.linux_ref
          Sample.windows_ref "aaaa" "bbbb" "cccc" None] /\
  add_record Sample.date_id Sample.no_args [Sample.bld "0"] = Ok [Sample.bld "0"].
Proof.
  destruct (add_record_appends_one Sample.date_id Sample.new_args [Sample.bld "0"])
    as [Hnew _].
  destruct (add_record_appends_one Sample.date_id Sample.no_args [Sample.bld "0"])
    as [_ Hnone].
  split.
  - apply Hnew; try reflexivity; discriminate.
  - apply Hnone. reflexivity.
Defined.

(** ** C7 *)

(** C7: after a run that reaches the end, the records loaded are the stored
    list in its order, the new record (if any) is at the end, and the list
    written back is a contiguous suffix of that list. *)
Theorem persisted_records_keep_append_order net parse_date args env now w0 w1 :
  main net parse_date args env now w0 = (Ok tt, w1) ->
  exists loaded records older kept,
    load_json (w_json w0) = Ok loaded /\
    (forall stored t, w_json w0 = JState stored t -> loaded = stored) /\
    (records = loaded \/ exists r, records = (loaded ++ [r])%list) /\
    records = (older ++ kept)%list /\
    w_json w1 = JState kept now.
Proof.
  intros H.
  destruct (main_ok_inv _ _ _ _ _ _ _ H)
    as (token & loaded & records & w2 & w3 & ci & t & _ & Hload & Hadd & _ & _ & _ & ->).
  exists loaded, records, (Py.slice_to records (- RETAIN)), (Py.slice_from records (- RETAIN)).
  repeat split; auto.
  - intros stored t0 Hs. rewrite Hs in Hload. cbn in Hload. congruence.
  - eapply add_record_shape; eauto.
  - symmetry. apply slice_to_from.
Qed.

Lemma persisted_records_keep_append_order_witness :
  Sample.run1 = (Ok tt, snd Sample.run1) /\
  exists loaded records older kept,
    load_json (w_json Sample.world1) = Ok loaded /\
    (forall stored t, w_json Sample.world1 = JState stored t -> loaded = stored) /\
    (records = loaded \/ exists r, records = (loaded ++ [r])%list) /\
    records = (older ++ kept)%list /\
    w_json (snd Sample.run1) = JState kept 2.
Proof.
  split.
  - vm_compute. reflexivity.
  - apply (persisted_records_keep_append_order Sample.net_ok Sample.date_id
             Sample.new_args (Some "t") 2 Sample.world1 (snd Sample.run1)).
    vm_compute. reflexivity.
Defined.

(** ** C8 *)

(** C8: a run that reaches the end went through load, append, prune, fetch,
    render and persist in this order, each step working on the previous one's
    result, and [index.json] then holds under [builds] the list after the
    append truncated to its last [RETAIN] records. *)
Theorem main_linear_persists_truncated net parse_date args env now w0 w1 :
  main net parse_date args env now w0 = (Ok tt, w1) ->
  exists token loaded records w2 w3 ci t,
    env = Some token /\
    load_json (w_json w0) = Ok loaded /\
    add_record parse_date args loaded = Ok records /\
    prune net (headers token) records w0 = (Ok tt, w2) /\
    fetch_images net (headers token) w2 = (Ok ci, w3) /\
    dump (render ci RETAIN (rev (mk_rows (Py.slice_from records (- RETAIN))))) = (t, true) /\
    w1 = set_json (JState (Py.slice_from records (- RETAIN)) now) (set_html (t ++ nl) w3).
Proof. apply main_ok_inv. Qed.

Lemma main_linear_persists_truncated_witness :
  Sample.run1 = (Ok tt, snd Sample.run1) /\
  exists token loaded records w2 w3 ci t,
    Some "t" = Some token /\
    load_json (w_json Sample.world1) = Ok loaded /\
    add_record Sample.date_id Sample.new_args loaded = Ok records /\
    prune Sample.net_ok (headers token) records Sample.world1 = (Ok tt, w2) /\
    fetch_images Sample.net_ok (headers token) w2 = (Ok ci, w3) /\
    dump (render ci RETAIN (rev (mk_rows (Py.slice_from records (- RETAIN))))) = (t, true) /\
    snd Sample.run1
    = set_json (JState (Py.slice_from records (- RETAIN)) 2) (set_html (t ++ nl) w3).
Proof.
  split.
  - vm_compute. reflexivity.
  - apply (main_linear_persists_truncated Sample.net_ok Sample.date_id
             Sample.new_args (Some "t") 2 Sample.world1 (snd Sample.run1)).
    vm_compute. reflexivity.
Defined.

(** ** C9 *)

(** C9 (counterexample): with [--pkgver] and no companion argument, and an
    [index.json] that does not parse, the script stops with the [ValueError]
    of [json.load] (raised before the arguments are checked), not with the
    argument error. *)
Lemma incomplete_args_bad_json_not_argument_error :
  main Sample.net_ok Sample.date_id Sample.incomplete_args (Some "t") 2
       Sample.world_badjson
  = (Err ValueError, Sample.world_badjson).
Proof. vm_compute. reflexivity. Qed.

(** C9 (amended): with a non-empty [--pkgver] and one companion argument
    absent or empty, the script stops with an exception and leaves the world
    as it was (no record, no request, no file written, nothing printed); the
    exception is the argument error unless reading [GITHUB_TOKEN] or loading an
    existing [index.json] raised first. *)
Theorem incomplete_new_build_stops net parse_date args env now w0 :
  Py.truthy (a_pkgver args) = true ->
  Py.truthy (a_linux_builder args) = false \/ Py.truthy (a_windows_builder args) = false \/
  Py.truthy (a_openslide args) = false \/ Py.truthy (a_java args) = false \/
  Py.truthy (a_winbuild args) = false ->
  main net parse_date args env now w0
  = (match env with
     | None => Err (KeyError "GITHUB_TOKEN")
     | Some _ =>
         match load_json (w_json w0) with
         | Ok _ => Err (ArgumentError incomplete_msg)
         | Err e => Err e
         end
     end, w0).
Proof.
  intros Hp Hc.
  assert (Hor : negb (Py.truthy (a_linux_builder args)) || negb (Py.truthy (a_windows_builder args))
                || negb (Py.truthy (a_openslide args)) || negb (Py.truthy (a_java args))
                || negb (Py.truthy (a_winbuild args)) = true).
  { destruct Hc as [H|[H|[H|[H|H]]]]; rewrite H; rewrite ?orb_true_r; reflexivity. }
  unfold main, bind, get_token, ret, raise, load_records.
  destruct env as [token|]; [|reflexivity].
  destruct (load_json (w_json w0)) as [loaded|e]; [|reflexivity].
  unfold after_load, bind, lift, add_record. rewrite Hp, Hor. reflexivity.
Qed.

Lemma incomplete_new_build_stops_witness :
  main Sample.net_ok Sample.date_id Sample.incomplete_args (Some "t") 2 Sample.world1
  = (Err (ArgumentError incomplete_msg), Sample.world1).
Proof.
  apply (incomplete_new_build_stops Sample.net_ok Sample.date_id Sample.incomplete_args
           (Some "t") 2 Sample.world1).
  - reflexivity.
  - left. reflexivity.
Defined.

(** ** C10 *)

Lemma nth_error_rows_from p l i row :
  nth_error (rows_from p l) i = Some row ->
  exists prev_record r, nth_error l i = Some r /\ row = row_of prev_record r.
Proof.
  revert p i. induction l as [|r l IH]; intros p i H.
  - destruct i; discriminate.
  - destruct i as [|i]; cbn in H.
    + inversion H. exists p, r. auto.
    + apply (IH (Some r) i H).
Qed.

Lemma length_rows_from p l : length (rows_from p l) = length l.
Proof. revert p. induction l; intros p; cbn; auto. Qed.

(** C10: after a run that reaches the end, [index.html] is the template
    rendered over the rows in reverse order: the [k]-th table row shown comes
    from the record at position [n - 1 - k] of the [n] records written to
    [index.json], so the newest build is shown first. *)
Theorem html_rows_newest_first net parse_date args env now w0 w1 :
  main net parse_date args env now w0 = (Ok tt, w1) ->
  exists kept ci t,
    w_json w1 = JState kept now /\
    dump (render ci RETAIN (rev (mk_rows kept))) = (t, true) /\
    w_html w1 = Some (t ++ nl) /\
    length (rev (mk_rows kept)) = length kept /\
    forall k row, nth_error (rev (mk_rows kept)) k = Some row ->
      exists r, nth_error kept (length kept - S k) = Some r /\
        r_pkgver row = pkgver r /\ r_date row = date r /\
        r_linux_builder row = linux_builder r /\
        r_windows_builder row = windows_builder r /\
        r_openslide_cur row = openslide r /\ r_java_cur row = openslide_java r /\
        r_winbuild_cur row = openslide_winbuild r.
Proof.
  intros H.
  destruct (main_ok_inv _ _ _ _ _ _ _ H)
    as (token & loaded & records & w2 & w3 & ci & t & _ & _ & _ & _ & _ & Hdump & ->).
  set (kept := Py.slice_from records (- RETAIN)).
  exists kept, ci, t.
  assert (Hlen : length (mk_rows kept) = length kept) by apply length_rows_from.
  repeat split; auto.
  - rewrite length_rev. exact Hlen.
  - intros k row Hk. rewrite nth_error_rev in Hk.
    destruct (Nat.ltb k (length (mk_rows kept))); [|discriminate].
    rewrite Hlen in Hk.
    destruct (nth_error_rows_from _ _ _ _ Hk) as (pr & r & Hr & ->).
    exists r. repeat split; auto.
Qed.

Lemma html_rows_newest_first_witness :
  Sample.run1 = (Ok tt, snd Sample.run1) /\
  exists kept ci t,
    w_json (snd Sample.run1) = JState kept 2 /\
    dump (render ci RETAIN (rev (mk_rows kept))) = (t, true) /\
    w_html (snd Sample.run1) = Some (t ++ nl) /\
    length (rev (mk_rows kept)) = length kept /\
    forall k row, nth_error (rev (mk_rows kept)) k = Some row ->
      exists r, nth_error kept (length kept - S k) = Some r /\
        r_pkgver row = pkgver r /\ r_date row = date r /\
        r_linux_builder row = linux_builder r /\
        r_windows_builder row = windows_builder r /\
        r_openslide_cur row = openslide r /\ r_java_cur row = openslide_java r /\
        r_winbuild_cur row = openslide_winbuild r.
Proof.
  split.
  - vm_compute. reflexivity.
  - apply (html_rows_newest_first Sample.net_ok Sample.date_id
             Sample.new_args (Some "t") 2 Sample.world1 (snd Sample.run1)).
    vm_compute. reflexivity.
Defined.

(** ** C5 *)

Lemma print_inv s w a w' : print s w = (Ok a, w') -> w' = log_line s w.
Proof. unfold print. intros H. inversion H. auto. Qed.

Lemma request_inv net q w resp w' :
  request net q w = (Ok resp, w') -> resp = net q /\ w' = log_req q w.
Proof. unfold request. intros H. inversion H. auto. Qed.

Lemma raise_for_status_ok_inv r w a w' :
  raise_for_status r w = (Ok a, w') -> is_error_status (status_code r) = false /\ w' = w.
Proof.
  unfold raise_for_status, raise, ret.
  destruct (is_error_status (status_code r)); intros H; inversion H; auto.
Qed.

Lemma resp_json_ok_inv r w j w' :
  resp_json r w = (Ok j, w') -> body r = Some j /\ w' = w.
Proof.
  unfold resp_json, raise, ret. destruct (body r); intros H; inversion H; auto.
Qed.

Lemma prune_one_ok net hdrs r w w' :
  prune_one net hdrs r w = (Ok tt, w') ->
  w_reqs w' = (w_reqs w ++ prune_requests_one net hdrs r)%list.
Proof.
  unfold prune_one, prune_requests_one. intros H.
  inv_bind H u w1 Hm. apply print_inv in Hm as ->.
  inv_bind H resp w2 Hm. apply request_inv in Hm as [-> ->].
  destruct (status_code (net (GET (tag_url (pkgver r)) hdrs)) =? 404)%Z.
  - apply print_inv in H as ->. reflexivity.
  - inv_bind H u3 w3 Hm. apply raise_for_status_ok_inv in Hm as [_ ->].
    inv_bind H j w4 Hm. apply resp_json_ok_inv in Hm as [Hj ->]. rewrite Hj.
    inv_bind H rid w5 Hm. apply lift_ok_inv in Hm as [Hid ->]. rewrite Hid.
    inv_bind H resp2 w6 Hm. apply request_inv in Hm as [-> ->].
    apply raise_for_status_ok_inv in H as [_ ->].
    unfold log_req. cbn [w_reqs]. rewrite <- app_assoc. reflexivity.
Qed.

Lemma for_each_prune_ok net hdrs xs w w' :
  for_each xs (prune_one net hdrs) w = (Ok tt, w') ->
  w_reqs w' = (w_reqs w ++ flat_map (prune_requests_one net hdrs) xs)%list.
Proof.
  revert w. induction xs as [|x xs IH]; intros w H.
  - cbn in H. inversion H. subst. rewrite app_nil_r. reflexivity.
  - cbn in H. apply bind_ok_inv in H as ([] & w1 & H1 & H2).
    apply prune_one_ok in H1. apply IH in H2.
    rewrite H2, H1. cbn. rewrite <- app_assoc. reflexivity.
Qed.

(** C5 (counterexample): the oldest of 31 records is expired, but its
    release lookup answers 404, so the run completes without any delete
    request. *)
Lemma already_gone_release_not_deleted :
  Py.slice_to (Sample.bld "x" :: Sample.thirty) (- RETAIN) = [Sample.bld "x"] /\
  fst Sample.run_gone = Ok tt /\
  w_reqs (snd Sample.run_gone)
  = [GET (tag_url "x") (headers "t");
     GET (versions_url "openslide" "linux-builder") (headers "t");
     GET (versions_url "openslide" "winbuild-builder") (headers "t")].
Proof. repeat split; vm_compute; reflexivity. Qed.

(** C5 (amended): a prune step that completes sent, for each record but the
    newest [RETAIN] and in list order, the lookup of the release tagged with
    its version and, unless that lookup answered 404, the deletion of the
    release with the id it returned; nothing for the newest [RETAIN]. *)
Theorem prune_issues_expected_requests net hdrs records w0 w1 :
  prune net hdrs records w0 = (Ok tt, w1) ->
  w_reqs w1 = (w_reqs w0 ++ prune_requests_expected net hdrs records)%list.
Proof.
  unfold prune, prune_requests_expected. rewrite slice_to_retain.
  apply for_each_prune_ok.
Qed.

Lemma prune_issues_expected_requests_witness :
  prune Sample.net_ok (headers "t") (Sample.bld "0" :: Sample.thirty) Sample.world_empty
  = (Ok tt, snd (prune Sample.net_ok (headers "t") (Sample.bld "0" :: Sample.thirty)
                       Sample.world_empty)) /\
  w_reqs (snd (prune Sample.net_ok (headers "t") (Sample.bld "0" :: Sample.thirty)
                     Sample.world_empty))
  = (w_reqs Sample.world_empty
     ++ prune_requests_expected Sample.net_ok (headers "t") (Sample.bld "0" :: Sample.thirty))%list.
Proof.
  split.
  - vm_compute. reflexivity.
  - apply prune_issues_expected_requests. vm_compute. reflexivity.
Defined.

(** ** C6 *)

Lemma app_nil_inv {A} (l x : list A) : l = (l ++ x)%list -> x = [].
Proof.
  intros H. apply (f_equal (@length A)) in H. rewrite length_app in H.
  destruct x; [reflexivity | cbn in H; lia].
Qed.

Ltac stops_trivial :=
  intros w0 r w1 H; inversion H; subst;
  split; [reflexivity|]; split; [reflexivity|];
  exists []; split; [rewrite app_nil_r; reflexivity | intros q []].

Lemma stops_ret net {A} (a : A) : stops net (ret a).
Proof. unfold ret. stops_trivial. Qed.

Lemma stops_raise net {A} e : stops net (@raise A e).
Proof. unfold raise. stops_trivial. Qed.

Lemma stops_lift net {A} (x : Result A) : stops net (lift x).
Proof. unfold lift. stops_trivial. Qed.

Lemma stops_print net s : stops net (print s).
Proof. unfold print. stops_trivial. Qed.

Lemma stops_get_token net env : stops net (get_token env).
Proof. destruct env; [apply stops_ret | apply stops_raise]. Qed.

Lemma stops_load_records net : stops net load_records.
Proof. unfold load_records. stops_trivial. Qed.

Lemma stops_raise_for_status net r : stops net (raise_for_status r).
Proof.
  unfold raise_for_status. destruct (is_error_status _); [apply stops_raise | apply stops_ret].
Qed.

Lemma stops_resp_json net r : stops net (resp_json r).
Proof. unfold resp_json. destruct (body r); [apply stops_ret | apply stops_raise]. Qed.

Lemma stops_bind net {A B} (m : M A) (k : A -> M B) :
  stops net m -> (forall a, stops net (k a)) -> stops net (bind m k).
Proof.
  intros Hm Hk w0 r w1 H. unfold bind in H.
  destruct (m w0) as [[a|e] wa] eqn:E.
  - destruct (Hm _ _ _ E) as (J1 & T1 & new1 & R1 & B1).
    destruct (Hk a _ _ _ H) as (J2 & T2 & new2 & R2 & B2).
    split; [congruence|]. split; [congruence|].
    exists (new1 ++ new2)%list. split.
    + rewrite R2, R1, app_assoc. reflexivity.
    + intros q Hin Hbad. apply in_app_or in Hin as [Hin|Hin].
      * destruct (B1 q Hin Hbad) as [Hc _]. discriminate.
      * destruct (B2 q Hin Hbad) as [Hr [pre Hpre]]. split; [exact Hr|].
        exists (new1 ++ pre)%list. rewrite Hpre, app_assoc. reflexivity.
  - inversion H. subst.
    destruct (Hm _ _ _ E) as (J & T & new & R & Bq).
    split; [exact J|]. split; [exact T|]. exists new. split; [exact R|].
    intros q Hin Hbad. destruct (Bq q Hin Hbad) as [Hr Hp].
    split; [inversion Hr; reflexivity | exact Hp].
Qed.

(** A request whose unrecovered error is raised at once by what follows. *)
Lemma stops_request_then net q {B} (k : Resp -> M B) :
  (unrecovered_error net q = true ->
     forall w, k (net q) w = (Err (HTTPError (status_code (net q))), w)) ->
  stops net (k (net q)) -> stops net (bind (request net q) k).
Proof.
  intros Hraise Hk w0 r w1 H. unfold bind, request in H.
  destruct (Hk _ _ _ H) as (J & T & new2 & R2 & B2).
  split; [exact J|]. split; [exact T|].
  exists (q :: new2). split.
  - rewrite R2. unfold log_req. cbn [w_reqs]. rewrite <- app_assoc. reflexivity.
  - intros q' Hin Hbad. destruct Hin as [<-|Hin].
    + rewrite (Hraise Hbad) in H. inversion H. subst.
      apply app_nil_inv in R2. subst. split; [reflexivity|]. exists []. reflexivity.
    + destruct (B2 q' Hin Hbad) as [Hr [pre Hpre]]. split; [exact Hr|].
      exists (q :: pre). rewrite Hpre. reflexivity.
Qed.

Lemma stops_for_each net {A} (xs : list A) body :
  (forall x, stops net (body x)) -> stops net (for_each xs body).
Proof.
  intros Hb. induction xs as [|x xs IH]; cbn.
  - apply stops_ret.
  - apply stops_bind; auto.
Qed.

Lemma stops_fold_m net {A B} (xs : list A) (acc : B) body :
  (forall acc x, stops net (body acc x)) -> stops net (fold_m xs acc body).
Proof.
  intros Hb. revert acc. induction xs as [|x xs IH]; intros acc; cbn.
  - apply stops_ret.
  - apply stops_bind; auto.
Qed.

Lemma tag_url_prefix v : String.prefix tag_prefix (tag_url v) = true.
Proof. reflexivity. Qed.

Lemma versions_url_not_prefix org name :
  String.prefix tag_prefix (versions_url org name) = false.
Proof. reflexivity. Qed.

Lemma raise_for_status_raises r {B} (k : unit -> M B) w :
  is_error_status (status_code r) = true ->
  bind (raise_for_status r) k w = (Err (HTTPError (status_code r)), w).
Proof. intros He. unfold bind, raise_for_status. rewrite He. reflexivity. Qed.

Lemma stops_prune_one net hdrs r : stops net (prune_one net hdrs r).
Proof.
  unfold prune_one. apply stops_bind; [apply stops_print|]. intros _.
  apply stops_request_then.
  - intros Hbad w. unfold unrecovered_error, recovered in Hbad.
    rewrite tag_url_prefix in Hbad. cbn [andb negb] in Hbad.
    destruct (status_code (net (GET (tag_url (pkgver r)) hdrs)) =? 404)%Z;
      [rewrite andb_false_r in Hbad; discriminate|].
    rewrite andb_true_r in Hbad. apply raise_for_status_raises. exact Hbad.
  - destruct (status_code (net (GET (tag_url (pkgver r)) hdrs)) =? 404)%Z;
      [apply stops_print|].
    apply stops_bind; [apply stops_raise_for_status|]. intros _.
    apply stops_bind; [apply stops_resp_json|]. intros release.
    apply stops_bind; [apply stops_lift|]. intros rid.
    apply (stops_request_then net _ raise_for_status).
    + intros Hbad w. unfold raise_for_status.
      unfold unrecovered_error, recovered in Hbad. rewrite andb_true_r in Hbad.
      rewrite Hbad. reflexivity.
    + apply stops_raise_for_status.
Qed.

Lemma stops_fetch_container net hdrs ci container :
  stops net (fetch_container net hdrs ci container).
Proof.
  unfold fetch_container.
  destruct (Py.split "/" container) as [|org [|name [|x rest]]]; try apply stops_raise.
  apply stops_request_then.
  - intros Hbad w. unfold unrecovered_error, recovered in Hbad.
    rewrite versions_url_not_prefix, andb_true_r in Hbad.
    apply raise_for_status_raises. exact Hbad.
  - apply stops_bind; [apply stops_raise_for_status|]. intros _.
    apply stops_bind; [apply stops_resp_json|]. intros j.
    apply stops_bind; [apply stops_lift|]. intros imgs.
    apply stops_fold_m. intros acc image.
    apply stops_bind; [apply stops_lift|]. intros nm.
    apply stops_bind; [apply stops_lift|]. intros url.
    apply stops_ret.
Qed.

Lemma stops_prune net hdrs records : stops net (prune net hdrs records).
Proof. unfold prune. apply stops_for_each. intros x. apply stops_prune_one. Qed.

Lemma stops_fetch_images net hdrs : stops net (fetch_images net hdrs).
Proof. unfold fetch_images. apply stops_fold_m. intros. apply stops_fetch_container. Qed.

Lemma halts_bind net {A B} (m : M A) (k : A -> M B) :
  stops net m -> (forall a, halts net (k a)) -> halts net (bind m k).
Proof.
  intros Hm Hk w0 r w1 H. unfold bind in H.
  destruct (m w0) as [[a|e] wa] eqn:E;
    destruct (Hm _ _ _ E) as (J1 & T1 & new1 & R1 & B1).
  - destruct (Hk a _ _ _ H) as [[new2 R2] Hk2].
    split.
    + exists (new1 ++ new2)%list. rewrite R2, R1, app_assoc. reflexivity.
    + intros new q Hnew Hin Hbad.
      rewrite R2, R1, <- app_assoc in Hnew. apply app_inv_head in Hnew. subst new.
      apply in_app_or in Hin as [Hin|Hin].
      * destruct (B1 q Hin Hbad) as [Hc _]. discriminate.
      * assert (R2' : w_reqs w1 = (w_reqs wa ++ new2)%list) by exact R2.
        destruct (Hk2 new2 q R2' Hin Hbad) as (Hr & [pre Hpre] & J2 & T2).
        split; [exact Hr|]. split; [|split; congruence].
        exists (new1 ++ pre)%list. rewrite Hpre, app_assoc. reflexivity.
  - inversion H. subst. split; [eauto|].
    intros new q Hnew Hin Hbad. rewrite R1 in Hnew. apply app_inv_head in Hnew. subst new.
    destruct (B1 q Hin Hbad) as [Hr Hpre].
    split; [inversion Hr; reflexivity|]. auto.
Qed.

Lemma halts_no_requests net {A} (m : M A) : no_requests m -> halts net m.
Proof.
  intros Hm w0 r w1 H. apply Hm in H. split.
  - exists []. rewrite app_nil_r. exact H.
  - intros new q Hnew Hin. rewrite H in Hnew. apply app_nil_inv in Hnew. subst. destruct Hin.
Qed.

Lemma no_requests_bind {A B} (m : M A) (k : A -> M B) :
  no_requests m -> (forall a, no_requests (k a)) -> no_requests (bind m k).
Proof.
  intros Hm Hk w0 r w1 H. unfold bind in H.
  destruct (m w0) as [[a|e] wa] eqn:E.
  - rewrite (Hk a _ _ _ H). exact (Hm _ _ _ E).
  - inversion H. subst. exact (Hm _ _ _ E).
Qed.

Lemma no_requests_write_html chunks : no_requests (write_html chunks).
Proof.
  intros w0 r w1. unfold write_html. destruct (dump chunks) as [t []];
    intros H; inversion H; reflexivity.
Qed.

Lemma no_requests_write_json records now : no_requests (write_json records now).
Proof. intros w0 r w1 H. inversion H. reflexivity. Qed.

Lemma halts_main net parse_date args env now :
  halts net (main net parse_date args env now).
Proof.
  unfold main, after_load.
  apply halts_bind; [apply stops_get_token|]. intros token.
  apply halts_bind; [apply stops_load_records|]. intros loaded.
  apply halts_bind; [apply stops_lift|]. intros records. cbv zeta.
  apply halts_bind; [apply stops_prune|]. intros _.
  apply halts_bind; [apply stops_fetch_images|]. intros ci.
  apply halts_no_requests. apply no_requests_bind; [apply no_requests_write_html|].
  intros _. apply no_requests_write_json.
Qed.

(** C6 (counterexample): in the run over 31 records whose oldest release is
    gone, the tag lookup gets a 404, an error status, and the run still
    completes normally. *)
Lemma tag_lookup_404_is_recovered :
  is_error_status (status_code (Sample.net_ok (GET (tag_url "x") (headers "t")))) = true /\
  In (GET (tag_url "x") (headers "t")) (w_reqs (snd Sample.run_gone)) /\
  fst Sample.run_gone = Ok tt.
Proof. repeat split; vm_compute; auto. Qed.

(** C6 (amended): when a request of the run gets a 4xx or 5xx response
    other than a 404 to a release-tag lookup of the prune loop, the run ends
    right there with the [HTTPError] of that status: it is the last request
    sent, and neither [index.html] nor [index.json] has been written. *)
Theorem http_errors_not_recovered net parse_date args env now w0 r w1 :
  main net parse_date args env now w0 = (r, w1) ->
  forall new q, w_reqs w1 = (w_reqs w0 ++ new)%list -> In q new ->
    unrecovered_error net q = true ->
    r = Err (HTTPError (status_code (net q))) /\
    (exists pre, new = (pre ++ [q])%list) /\
    w_json w1 = w_json w0 /\ w_html w1 = w_html w0.
Proof.
  intros H. exact (proj2 (halts_main net parse_date args env now w0 r w1 H)).
Qed.

Lemma http_errors_not_recovered_witness :
  fst (main Sample.net_500 Sample.date_id Sample.no_args (Some "t") 2 Sample.world1)
  = Err (HTTPError (status_code (Sample.net_500 Sample.linux_versions_req))) /\
  (exists pre, [Sample.linux_versions_req] = (pre ++ [Sample.linux_versions_req])%list) /\
  w_json (snd (main Sample.net_500 Sample.date_id Sample.no_args (Some "t") 2 Sample.world1))
  = w_json Sample.world1 /\
  w_html (snd (main Sample.net_500 Sample.date_id Sample.no_args (Some "t") 2 Sample.world1))
  = w_html Sample.world1.
Proof.
  apply (http_errors_not_recovered Sample.net_500 Sample.date_id Sample.no_args
           (Some "t") 2 Sample.world1
           (fst (main Sample.net_500 Sample.date_id Sample.no_args (Some "t") 2 Sample.world1))
           (snd (main Sample.net_500 Sample.date_id Sample.no_args (Some "t") 2 Sample.world1))).
  - vm_compute. reflexivity.
  - vm_compute. reflexivity.
  - left. reflexivity.
  - vm_compute. reflexivity.
Defined.

(** ** C2 *)

(** C2 (counterexample): two runs over the same stored record, with the same
    arguments, compute the same rows, but the API lists an image version of
    the Linux builder in one run and none in the other; the builder cell is a
    link in the first page only, so the two pages differ. *)
Lemma html_depends_on_fetched_images :
  fst (main Sample.net_ok Sample.date_id Sample.no_args (Some "t") 2 Sample.world1) = Ok tt /\
  fst (main Sample.net_noimg Sample.date_id Sample.no_args (Some "t") 2 Sample.world1) = Ok tt /\
  w_json (snd (main Sample.net_ok Sample.date_id Sample.no_args (Some "t") 2 Sample.world1))
  = w_json (snd (main Sample.net_noimg Sample.date_id Sample.no_args (Some "t") 2 Sample.world1)) /\
  w_html (snd (main Sample.net_ok Sample.date_id Sample.no_args (Some "t") 2 Sample.world1))
  <> w_html (snd (main Sample.net_noimg Sample.date_id Sample.no_args (Some "t") 2 Sample.world1)).
Proof.
  split; [vm_compute; reflexivity|].
  split; [vm_compute; reflexivity|].
  split; [vm_compute; reflexivity|].
  vm_compute. discriminate.
Qed.

Lemma pair_fst {A B} (p : A * B) a : fst p = a -> p = (a, snd p).
Proof. destruct p. cbn. intros ->. reflexivity. Qed.

Lemma pure_ret {A} (a : A) : pure_res (ret a).
Proof. intros w w'. reflexivity. Qed.

Lemma pure_raise {A} e : pure_res (raise (A := A) e).
Proof. intros w w'. reflexivity. Qed.

Lemma pure_lift {A} (r : Result A) : pure_res (lift r).
Proof. intros w w'. reflexivity. Qed.

Lemma fst_bind_congr {A B} (m m' : M A) (k k' : A -> M B) w w' :
  fst (m w) = fst (m' w') ->
  (forall a v v', fst (k a v) = fst (k' a v')) ->
  fst (bind m k w) = fst (bind m' k' w').
Proof.
  intros Hm Hk. unfold bind.
  destruct (m w) as [r1 w1], (m' w') as [r2 w2]. cbn in Hm. subst r2.
  destruct r1 as [a|e]; [apply Hk|reflexivity].
Qed.

Lemma pure_bind {A B} (m : M A) (k : A -> M B) :
  pure_res m -> (forall a, pure_res (k a)) -> pure_res (bind m k).
Proof. intros Hm Hk w w'. apply fst_bind_congr; [apply Hm|]. intros a v v'. apply Hk. Qed.

Lemma pure_fold_m {A B} (xs : list A) (acc : B) (body : B -> A -> M B) :
  (forall a x, pure_res (body a x)) -> pure_res (fold_m xs acc body).
Proof.
  intros Hb. revert acc. induction xs as [|x xs IH]; intros acc; cbn [fold_m].
  - apply pure_ret.
  - apply pure_bind; auto.
Qed.

Lemma pure_raise_for_status r : pure_res (raise_for_status r).
Proof.
  unfold raise_for_status. destruct (is_error_status _); [apply pure_raise|apply pure_ret].
Qed.

Lemma pure_resp_json r : pure_res (resp_json r).
Proof. unfold resp_json. destruct (body r); [apply pure_ret|apply pure_raise]. Qed.

Lemma pure_app {A} (m : M A) : pure_res m -> forall v v', fst (m v) = fst (m v').
Proof. auto. Qed.

Lemma bind_request {A} net q (k : Resp -> M A) w :
  bind (request net q) k w = k (net q) (log_req q w).
Proof. reflexivity. Qed.

(** The outcome of one iteration of the container loop depends only on the
    answer to its version listing. *)
Lemma fetch_container_same net net' hdrs hdrs' ci c org name w w' :
  Py.split "/" c = [org; name] ->
  net (GET (versions_url org name) hdrs) = net' (GET (versions_url org name) hdrs') ->
  fst (fetch_container net hdrs ci c w) = fst (fetch_container net' hdrs' ci c w').
Proof.
  intros Hs Hn. unfold fetch_container. rewrite Hs, !bind_request, Hn.
  apply pure_app.
  apply pure_bind; [apply pure_raise_for_status|]. intros _.
  apply pure_bind; [apply pure_resp_json|]. intros j.
  apply pure_bind; [apply pure_lift|]. intros imgs.
  apply pure_fold_m. intros a x.
  apply pure_bind; [apply pure_lift|]. intros nm.
  apply pure_bind; [apply pure_lift|]. intros url. apply pure_ret.
Qed.

Lemma fetch_images_same net net' hdrs hdrs' w w' :
  net (GET (versions_url "openslide" "linux-builder") hdrs)
  = net' (GET (versions_url "openslide" "linux-builder") hdrs') ->
  net (GET (versions_url "openslide" "winbuild-builder") hdrs)
  = net' (GET (versions_url "openslide" "winbuild-builder") hdrs') ->
  fst (fetch_images net hdrs w) = fst (fetch_images net' hdrs' w').
Proof.
  intros H1 H2. unfold fetch_images, CONTAINERS. cbn [fold_m].
  apply fst_bind_congr; [apply fetch_container_same with "openslide" "linux-builder";
                         [reflexivity|exact H1]|].
  intros a v v'.
  apply fst_bind_congr; [apply fetch_container_same with "openslide" "winbuild-builder";
                         [reflexivity|exact H2]|].
  intros b u u'. reflexivity.
Qed.

(** C2 (amended): rendering is a function of the rows and of the
    container-image map fetched from the API.  A completed run writes the
    template rendered over the rows of the records it keeps and over the map
    its fetch returned; so two completed runs that keep the same records and
    get the same answers to the two container version listings write the same
    [index.html], whatever else differs between them (state file, arguments,
    token, pruned releases, other API answers, timestamp). *)
Theorem html_determined_by_rows_and_images net net' parse_date parse_date' args args'
    token token' now now' w0 w0' w1 w1' kept :
  main net parse_date args (Some token) now w0 = (Ok tt, w1) ->
  main net' parse_date' args' (Some token') now' w0' = (Ok tt, w1') ->
  w_json w1 = JState kept now ->
  w_json w1' = JState kept now' ->
  net (GET (versions_url "openslide" "linux-builder") (headers token))
  = net' (GET (versions_url "openslide" "linux-builder") (headers token')) ->
  net (GET (versions_url "openslide" "winbuild-builder") (headers token))
  = net' (GET (versions_url "openslide" "winbuild-builder") (headers token')) ->
  (exists ci w2 w3 t,
     fetch_images net (headers token) w2 = (Ok ci, w3) /\
     dump (render ci RETAIN (rev (mk_rows kept))) = (t, true) /\
     w_html w1 = Some (t ++ nl)) /\
  w_html w1 = w_html w1'.
Proof.
  intros H H' Hk Hk' Hn1 Hn2.
  destruct (main_ok_inv _ _ _ _ _ _ _ H)
    as (tk & loaded & records & w2 & w3 & ci & t & Htk & _ & _ & _ & Hfetch & Hdump & ->).
  destruct (main_ok_inv _ _ _ _ _ _ _ H')
    as (tk' & loaded' & records' & w2' & w3' & ci' & t' & Htk' & _ & _ & _ & Hfetch'
        & Hdump' & ->).
  inversion Htk. subst tk. inversion Htk'. subst tk'.
  cbn [w_json w_html set_json set_html] in *.
  inversion Hk. subst kept. inversion Hk'. rename H1 into Hkept.
  pose proof (fetch_images_same _ _ _ _ w2 w2' Hn1 Hn2) as Hci.
  rewrite Hfetch, Hfetch' in Hci. cbn in Hci. inversion Hci. subst ci'.
  assert (Hk2 : Py.slice_from records' (- RETAIN) = Py.slice_from records (- RETAIN))
    by exact Hkept.
  rewrite Hk2, Hdump in Hdump'. inversion Hdump'. subst t'.
  split; [|reflexivity].
  exists ci, w2, w3, t. rewrite Hkept. exact (conj Hfetch (conj Hdump eq_refl)).
Qed.

(** Two runs that differ in state file, arguments, token and clock: the first
    appends a build to one stored record, the second finds both already
    stored; they keep the same records and write the same page. *)
Lemma html_determined_by_rows_and_images_witness :
  (exists ci w2 w3 t,
     fetch_images Sample.net_ok (headers "t") w2 = (Ok ci, w3) /\
     dump (render ci RETAIN (rev (mk_rows [Sample.bld "0"; Sample.new_rec]))) = (t, true) /\
     w_html (snd Sample.run1) = Some (t ++ nl)) /\
  w_html (snd Sample.run1)
  = w_html (snd (main Sample.net_ok Sample.date_id Sample.no_args (Some "u") 5
                      Sample.world_kept2)).
Proof.
  apply (html_determined_by_rows_and_images Sample.net_ok Sample.net_ok Sample.date_id
           Sample.date_id Sample.new_args Sample.no_args "t" "u" 2 5 Sample.world1
           Sample.world_kept2);
    [vm_compute; reflexivity|apply pair_fst; vm_compute; reflexivity
    |vm_compute; reflexivity|vm_compute; reflexivity|reflexivity|reflexivity].
Defined.

(** * Further properties of the script *)

(** ** Rows: compare links against the previous build *)

Lemma nth_error_rows_from_prev p l i r :
  nth_error l i = Some r ->
  nth_error (rows_from p l) i
  = Some (row_of (match i with 0 => p | S j => nth_error l j end) r).
Proof.
  revert p i. induction l as [|x l IH]; intros p i H.
  - destruct i; discriminate.
  - destruct i as [|j]; cbn in H |- *.
    + inversion H. reflexivity.
    + rewrite (IH (Some x) j H). destruct j; reflexivity.
Qed.

(** The row of the first record has no compare link; the row of any later
    record links a repository to the previous record's commit exactly when the
    commit changed. *)
Theorem rows_compare_with_previous records i r :
  nth_error records i = Some r ->
  exists row,
    nth_error (mk_rows records) i = Some row /\
    r_openslide_cur row = openslide r /\ r_java_cur row = openslide_java r /\
    r_winbuild_cur row = openslide_winbuild r /\
    match i with
    | 0 => r_openslide_prev row = None /\ r_java_prev row = None /\
           r_winbuild_prev row = None
    | S j =>
        forall p, nth_error records j = Some p ->
          r_openslide_prev row
          = (if String.eqb (openslide r) (openslide p) then None else Some (openslide p)) /\
          r_java_prev row
          = (if String.eqb (openslide_java r) (openslide_java p) then None
             else Some (openslide_java p)) /\
          r_winbuild_prev row
          = (if String.eqb (openslide_winbuild r) (openslide_winbuild p) then None
             else Some (openslide_winbuild p))
    end.
Proof.
  intros H. unfold mk_rows. rewrite (nth_error_rows_from_prev None records i r H).
  eexists. split; [reflexivity|]. repeat split.
  destruct i as [|j].
  - repeat split.
  - intros p Hp. rewrite Hp. cbn. unfold prev.
    repeat split; destruct (String.eqb _ _); reflexivity.
Qed.

Lemma rows_compare_with_previous_witness :
  exists row,
    nth_error (mk_rows [Sample.bld "0"; Sample.bld "1"]) 1 = Some row /\
    r_openslide_cur row = "os1" /\ r_java_cur row = "jv" /\ r_winbuild_cur row = "wb" /\
    forall p, nth_error [Sample.bld "0"; Sample.bld "1"] 0 = Some p ->
      r_openslide_prev row
      = (if String.eqb "os1" (openslide p) then None else Some (openslide p)) /\
      r_java_prev row
      = (if String.eqb "jv" (openslide_java p) then None else Some (openslide_java p)) /\
      r_winbuild_prev row
      = (if String.eqb "wb" (openslide_winbuild p) then None
         else Some (openslide_winbuild p)).
Proof.
  exact (rows_compare_with_previous [Sample.bld "0"; Sample.bld "1"] 1 (Sample.bld "1")
           eq_refl).
Defined.

(** ** The builder short id *)

Lemma lacks_cons c x s : lacks c (String x s) = true -> x <> c /\ lacks c s = true.
Proof.
  unfold lacks. cbn. rewrite negb_orb. intros H. apply andb_prop in H as [H1 H2].
  split; [|exact H2].
  intros ->. rewrite Ascii.eqb_refl in H1. discriminate.
Qed.

Lemma split_lacks sep s : lacks sep s = true -> Py.split sep s = [s].
Proof.
  induction s as [|x s IH]; intros H; [reflexivity|].
  apply lacks_cons in H as [Hx Hs]. cbn. rewrite (IH Hs).
  destruct (Ascii.eqb x sep) eqn:E; [apply Ascii.eqb_eq in E; congruence|].
  reflexivity.
Qed.

Lemma split_app_sep sep a b :
  lacks sep a = true -> Py.split sep (a ++ String sep b) = a :: Py.split sep b.
Proof.
  induction a as [|x a IH]; intros H.
  - cbn. rewrite Ascii.eqb_refl. reflexivity.
  - apply lacks_cons in H as [Hx Ha]. cbn. rewrite (IH Ha).
    destruct (Ascii.eqb x sep) eqn:E; [apply Ascii.eqb_eq in E; congruence|].
    reflexivity.
Qed.

Lemma lacks_app c a b : lacks c (a ++ b) = lacks c a && lacks c b.
Proof.
  induction a as [|x a IH]; [reflexivity|].
  unfold lacks in *. cbn. rewrite !negb_orb, IH, andb_assoc. reflexivity.
Qed.

(** A builder reference [name@alg:digest] (no [@] after the first one, no
    [:] in [alg] or [digest]) is shown as the first 8 characters of the
    digest. *)
Theorem builder_short_digest name alg digest :
  lacks "@" name = true -> lacks "@" alg = true -> lacks ":" alg = true ->
  lacks "@" digest = true -> lacks ":" digest = true ->
  builder_short (name ++ "@" ++ alg ++ ":" ++ digest) = Some (Py.take 8 digest).
Proof.
  intros Hn Ha1 Ha2 Hd1 Hd2. unfold builder_short.
  change ("@" ++ alg ++ ":" ++ digest) with (String "@" (alg ++ String ":" digest)).
  rewrite (split_app_sep _ _ _ Hn).
  rewrite (split_lacks "@");
    [|rewrite lacks_app, Ha1; cbn [andb]; unfold lacks in *; cbn; exact Hd1].
  cbn [nth_error].
  rewrite (split_app_sep _ _ _ Ha2), (split_lacks _ _ Hd2). reflexivity.
Qed.

Lemma builder_short_digest_witness :
  builder_short ("ghcr.io/openslide/linux-builder" ++ "@" ++ "sha256" ++ ":"
                 ++ "0123456789abcdef") = Some "01234567".
Proof.
  apply (builder_short_digest "ghcr.io/openslide/linux-builder" "sha256"
           "0123456789abcdef"); reflexivity.
Defined.

(** ** Failed runs and the state file *)

Lemma json_stable_of_stops net {A} (m : M A) : stops net m -> json_stable m.
Proof. intros H w0 r w1 E. exact (proj1 (H _ _ _ E)). Qed.

Lemma json_kept_bind {A B} (m : M A) (k : A -> M B) :
  json_stable m -> (forall a, json_kept_on_err (k a)) -> json_kept_on_err (bind m k).
Proof.
  intros Hm Hk w0 e w1 H. unfold bind in H.
  destruct (m w0) as [[a|e'] wa] eqn:E.
  - rewrite (Hk a _ _ _ H). exact (Hm _ _ _ E).
  - inversion H. subst. exact (Hm _ _ _ E).
Qed.

Lemma main_err_keeps_json net parse_date args env now :
  json_kept_on_err (main net parse_date args env now).
Proof.
  unfold main, after_load.
  apply json_kept_bind; [apply (json_stable_of_stops net), stops_get_token|]. intros token.
  apply json_kept_bind; [apply (json_stable_of_stops net), stops_load_records|]. intros l.
  apply json_kept_bind; [apply (json_stable_of_stops net), stops_lift|]. intros records.
  cbv zeta.
  apply json_kept_bind; [apply (json_stable_of_stops net), stops_prune|]. intros _.
  apply json_kept_bind; [apply (json_stable_of_stops net), stops_fetch_images|]. intros ci.
  apply json_kept_bind.
  - intros w0 r w1. unfold write_html. destruct (dump _) as [t []];
      intros H; inversion H; reflexivity.
  - intros _ w0 e w1 H. discriminate.
Qed.

(** A run that raises, wherever it does, leaves [index.json] as it was: the
    state file is only rewritten by a run that completes. *)
Theorem failed_run_keeps_state_file net parse_date args env now w0 e w1 :
  main net parse_date args env now w0 = (Err e, w1) -> w_json w1 = w_json w0.
Proof. apply main_err_keeps_json. Qed.

Lemma failed_run_keeps_state_file_witness :
  w_json (snd (main Sample.net_500 Sample.date_id Sample.new_args (Some "t") 2 Sample.world1))
  = w_json Sample.world1.
Proof.
  apply (failed_run_keeps_state_file Sample.net_500 Sample.date_id Sample.new_args
           (Some "t") 2 Sample.world1 (HTTPError 500)).
  vm_compute. reflexivity.
Defined.

Lemma dump_ok_all l : snd (dump l) = forallb chunk_ok l.
Proof.
  induction l as [|c l IH]; [reflexivity|].
  destruct c as [s|]; cbn; [|reflexivity].
  destruct (dump l) as [t ok]. exact IH.
Qed.

Lemma render_fails_on_bad_builder ci n rows row :
  In row rows ->
  builder_short (r_linux_builder row) = None \/ builder_short (r_windows_builder row) = None ->
  snd (dump (render ci n rows)) = false.
Proof.
  intros Hin Hb. rewrite dump_ok_all. apply not_true_is_false. intros H.
  rewrite forallb_forall in H.
  assert (Hn : In None (render ci n rows)).
  { unfold render. apply in_or_app. right. apply in_or_app. left.
    apply in_flat_map. exists row. split; [exact Hin|].
    unfold row_chunks, builder_link.
    destruct Hb as [Hb|Hb]; rewrite Hb; apply in_or_app; left; cbn; tauto. }
  specialize (H None Hn). discriminate.
Qed.

Lemma in_rows_from q l r : In r l -> exists p, In (row_of p r) (rows_from q l).
Proof.
  revert q. induction l as [|x l IH]; intros q Hin; [destruct Hin|].
  destruct Hin as [<-|Hin].
  - exists q. left. reflexivity.
  - destruct (IH (Some x) Hin) as [p Hp]. exists p. right. exact Hp.
Qed.

(** When a record that would be kept has a builder reference without an
    [@...:digest] part, the run does not complete (rendering its row raises)
    and [index.json] is not rewritten. *)
Theorem malformed_builder_stops_run net parse_date args env now w0 r w1 loaded records rec :
  main net parse_date args env now w0 = (r, w1) ->
  load_json (w_json w0) = Ok loaded ->
  add_record parse_date args loaded = Ok records ->
  In rec (Py.slice_from records (- RETAIN)) ->
  builder_short (linux_builder rec) = None \/ builder_short (windows_builder rec) = None ->
  r <> Ok tt /\ w_json w1 = w_json w0.
Proof.
  intros H Hload Hadd Hin Hb.
  assert (Hr : r <> Ok tt).
  { intros ->.
    destruct (main_ok_inv _ _ _ _ _ _ _ H)
      as (token & loaded' & records' & w2 & w3 & ci & t & _ & Hload' & Hadd' & _ & _ & Hdump & _).
    rewrite Hload in Hload'. inversion Hload'. subst loaded'.
    rewrite Hadd in Hadd'. inversion Hadd'. subst records'.
    destruct (in_rows_from None _ _ Hin) as [p Hp].
    assert (Hf : snd (dump (render ci RETAIN (rev (mk_rows (Py.slice_from records (- RETAIN))))))
                 = false).
    { apply (render_fails_on_bad_builder _ _ _ (row_of p rec)).
      - apply in_rev. rewrite rev_involutive. exact Hp.
      - exact Hb. }
    rewrite Hdump in Hf. discriminate. }
  split; [exact Hr|].
  destruct r as [[]|e]; [contradiction|].
  exact (main_err_keeps_json _ _ _ _ _ _ _ _ H).
Qed.

Lemma malformed_builder_stops_run_witness :
  fst Sample.run_bad_builder <> Ok tt /\
  w_json (snd Sample.run_bad_builder) = w_json Sample.world_bad_builder.
Proof.
  apply (malformed_builder_stops_run Sample.net_ok Sample.date_id Sample.no_args
           (Some "t") 2 Sample.world_bad_builder (fst Sample.run_bad_builder)
           (snd Sample.run_bad_builder) [Sample.bad_builder] [Sample.bad_builder]
           Sample.bad_builder).
  - vm_compute. reflexivity.
  - reflexivity.
  - reflexivity.
  - vm_compute. left. reflexivity.
  - left. reflexivity.
Defined.

(** ** Requests of a completed run *)

Lemma no_requests_ret {A} (a : A) : no_requests (ret a).
Proof. intros w0 r w1 H. inversion H. reflexivity. Qed.

Lemma no_requests_lift {A} (r : Result A) : no_requests (lift r).
Proof. intros w0 r' w1 H. inversion H. reflexivity. Qed.

Lemma no_requests_fold_m {A B} (xs : list A) (acc : B) (body : B -> A -> M B) :
  (forall a x, no_requests (body a x)) -> no_requests (fold_m xs acc body).
Proof.
  intros Hb. revert acc. induction xs as [|x xs IH]; intros acc; cbn [fold_m].
  - apply no_requests_ret.
  - apply no_requests_bind; auto.
Qed.

Lemma fetch_container_ok net hdrs ci c org name w ci' w' :
  Py.split "/" c = [org; name] ->
  fetch_container net hdrs ci c w = (Ok ci', w') ->
  w_reqs w' = (w_reqs w ++ [GET (versions_url org name) hdrs])%list.
Proof.
  intros Hs. unfold fetch_container. rewrite Hs. intros H.
  inv_bind H resp w1 Hm. apply request_inv in Hm as [-> ->].
  inv_bind H u w2 Hm. apply raise_for_status_ok_inv in Hm as [_ ->].
  inv_bind H j w3 Hm. apply resp_json_ok_inv in Hm as [_ ->].
  inv_bind H imgs w4 Hm. apply lift_ok_inv in Hm as [_ ->].
  apply no_requests_fold_m in H; [exact H|].
  intros a x. apply no_requests_bind; [apply no_requests_lift|]. intros nm.
  apply no_requests_bind; [apply no_requests_lift|]. intros url. apply no_requests_ret.
Qed.

Lemma fetch_images_ok net hdrs w ci w' :
  fetch_images net hdrs w = (Ok ci, w') ->
  w_reqs w' = (w_reqs w ++ [GET (versions_url "openslide" "linux-builder") hdrs;
                            GET (versions_url "openslide" "winbuild-builder") hdrs])%list.
Proof.
  unfold fetch_images, CONTAINERS. cbn [fold_m]. intros H.
  inv_bind H ci1 w1 Hm. apply (fetch_container_ok _ _ _ _ "openslide" "linux-builder") in Hm;
    [|reflexivity].
  inv_bind H ci2 w2 Hm2. apply (fetch_container_ok _ _ _ _ "openslide" "winbuild-builder") in Hm2;
    [|reflexivity].
  inversion H. subst. rewrite Hm2, Hm, <- app_assoc. reflexivity.
Qed.

(** A run that completes sends exactly these requests, in this order: the
    tag lookups and deletions of the prune loop for the records beyond the
    newest 30, then one listing of the versions of each of the two builder
    containers; nothing else. *)
Theorem completed_run_requests net parse_date args token now w0 w1 loaded records :
  main net parse_date args (Some token) now w0 = (Ok tt, w1) ->
  load_json (w_json w0) = Ok loaded ->
  add_record parse_date args loaded = Ok records ->
  w_reqs w1 =
  (w_reqs w0 ++ prune_requests_expected net (headers token) records
   ++ [GET (versions_url "openslide" "linux-builder") (headers token);
       GET (versions_url "openslide" "winbuild-builder") (headers token)])%list.
Proof.
  intros H Hload Hadd.
  destruct (main_ok_inv _ _ _ _ _ _ _ H)
    as (token' & loaded' & records' & w2 & w3 & ci & t & Htok & Hload' & Hadd' & Hprune
        & Hfetch & _ & ->).
  inversion Htok. subst token'.
  rewrite Hload in Hload'. inversion Hload'. subst loaded'.
  rewrite Hadd in Hadd'. inversion Hadd'. subst records'.
  cbn [w_reqs set_json set_html].
  apply fetch_images_ok in Hfetch. rewrite Hfetch.
  unfold prune in Hprune. apply for_each_prune_ok in Hprune.
  rewrite Hprune, <- app_assoc. unfold prune_requests_expected.
  rewrite slice_to_retain. reflexivity.
Qed.

Lemma completed_run_requests_witness :
  w_reqs (snd Sample.run1) =
  (w_reqs Sample.world1
   ++ prune_requests_expected Sample.net_ok (headers "t")
        [Sample.bld "0"; Sample.new_rec]
   ++ [GET (versions_url "openslide" "linux-builder") (headers "t");
       GET (versions_url "openslide" "winbuild-builder") (headers "t")])%list.
Proof.
  apply (completed_run_requests Sample.net_ok Sample.date_id Sample.new_args "t" 2
           Sample.world1 (snd Sample.run1) [Sample.bld "0"]).
  - vm_compute. reflexivity.
  - reflexivity.
  - vm_compute. reflexivity.
Defined.

(** ** Where the image links come from *)

Lemma fold_m_inv {A B} (P : B -> Prop) (xs : list A) (body : B -> A -> M B) :
  forall acc w acc' w', P acc ->
  (forall a x w w' a', In x xs -> P a -> body a x w = (Ok a', w') -> P a') ->
  fold_m xs acc body w = (Ok acc', w') -> P acc'.
Proof.
  induction xs as [|x xs IH]; intros acc w acc' w' Hacc Hstep H; cbn [fold_m] in H.
  - inversion H. subst. exact Hacc.
  - inv_bind H a1 w1 Hm.
    apply (IH a1 w1 acc' w'); [| |exact H].
    + exact (Hstep _ _ _ _ _ (or_introl eq_refl) Hacc Hm).
    + intros a y v v' a' Hy. apply Hstep. right. exact Hy.
Qed.

Lemma fetch_container_from_api net hdrs ci c w ci' w' :
  In c CONTAINERS ->
  (forall kv, In kv ci -> from_api net hdrs kv) ->
  fetch_container net hdrs ci c w = (Ok ci', w') ->
  forall kv, In kv ci' -> from_api net hdrs kv.
Proof.
  intros Hc Hci H. unfold fetch_container in H.
  destruct (Py.split "/" c) as [|org [|name [|x rest]]] eqn:Hs;
    try (unfold raise in H; discriminate).
  inv_bind H resp w1 Hm. apply request_inv in Hm as [-> ->].
  inv_bind H u w2 Hm. apply raise_for_status_ok_inv in Hm as [_ ->].
  inv_bind H j w3 Hm. apply resp_json_ok_inv in Hm as [Hj ->].
  inv_bind H imgs w4 Hm. apply lift_ok_inv in Hm as [Himgs ->].
  refine (fold_m_inv (fun acc => forall kv, In kv acc -> from_api net hdrs kv)
            imgs _ _ _ _ _ Hci _ H).
  intros a image v v' a' Himage Ha Hb kv Hkv.
  inv_bind Hb nm wn Hm. apply lift_ok_inv in Hm as [Hnm ->].
  inv_bind Hb url wu Hm. apply lift_ok_inv in Hm as [Hurl ->].
  inversion Hb. subst a'.
  destruct Hkv as [<-|Hkv]; [|exact (Ha kv Hkv)].
  exists c, org, name, j, imgs, image, nm. repeat split; assumption.
Qed.

Lemma fetch_images_from_api net hdrs w ci w' :
  fetch_images net hdrs w = (Ok ci, w') ->
  forall kv, In kv ci -> from_api net hdrs kv.
Proof.
  unfold fetch_images. intros H.
  refine (fold_m_inv (fun acc => forall kv, In kv acc -> from_api net hdrs kv)
            CONTAINERS _ _ _ _ _ _ _ H).
  - intros kv [].
  - intros a c v v' a' Hc Ha Hm. exact (fetch_container_from_api _ _ _ _ _ _ _ Hc Ha Hm).
Qed.

Lemma images_get_in ci k v : images_get ci k = Some v -> In (k, v) ci.
Proof.
  unfold images_get. destruct (find _ ci) as [[k' v']|] eqn:E; [|discriminate].
  intros H. inversion H. subst v'.
  apply find_some in E as [Hin Heq]. cbn in Heq.
  apply String.eqb_eq in Heq. subst k'. exact Hin.
Qed.

(** Every builder link of the page points to an [html_url] the API listed:
    an entry of the image map is the [html_url] of an image in the version
    listing of [openslide/linux-builder] or [openslide/winbuild-builder],
    under the reference [ghcr.io/<org>/<name>@<image name>]. *)
Theorem fetched_images_from_api net hdrs w ci w' ref url :
  fetch_images net hdrs w = (Ok ci, w') ->
  images_get ci ref = Some url ->
  from_api net hdrs (ref, url).
Proof.
  intros H Hget. exact (fetch_images_from_api _ _ _ _ _ H _ (images_get_in _ _ _ Hget)).
Qed.

Lemma fetched_images_from_api_witness :
  from_api Sample.net_ok (headers "t") (Sample.linux_ref, JStr "https://github.com/img").
Proof.
  apply (fetched_images_from_api Sample.net_ok (headers "t") Sample.world_empty
           Sample.images_ok
           (snd (fetch_images Sample.net_ok (headers "t") Sample.world_empty))).
  - vm_compute. reflexivity.
  - reflexivity.
Defined.

(** ** Failed runs and the page *)

Lemma str_app_assoc (a b c : string) : (a ++ b) ++ c = a ++ (b ++ c).
Proof. induction a as [|x a IH]; cbn; [reflexivity|]. rewrite IH. reflexivity. Qed.

Lemma str_app_nil (s : string) : s ++ "" = s.
Proof. induction s as [|x s IH]; cbn; [reflexivity|]. rewrite IH. reflexivity. Qed.

Lemma nu_ret {A} (a : A) : no_undefined (ret a).
Proof. intros w0 e w1 H. discriminate. Qed.

Lemma nu_raise {A} e : e <> UndefinedError -> no_undefined (raise (A := A) e).
Proof. intros He w0 e' w1 H. inversion H. subst. exact He. Qed.

Lemma nu_lift {A} (r : Result A) :
  (forall e, r = Err e -> e <> UndefinedError) -> no_undefined (lift r).
Proof. intros Hr w0 e w1 H. inversion H. subst. apply Hr. reflexivity. Qed.

Lemma nu_bind {A B} (m : M A) (k : A -> M B) :
  no_undefined m -> (forall a, no_undefined (k a)) -> no_undefined (bind m k).
Proof.
  intros Hm Hk w0 e w1 H. unfold bind in H.
  destruct (m w0) as [[a|e'] wa] eqn:E.
  - exact (Hk a _ _ _ H).
  - inversion H. subst. exact (Hm _ _ _ E).
Qed.

Lemma nu_for_each {A} (xs : list A) (body : A -> M unit) :
  (forall x, no_undefined (body x)) -> no_undefined (for_each xs body).
Proof.
  intros Hb. induction xs as [|x xs IH]; cbn [for_each].
  - apply nu_ret.
  - apply nu_bind; auto.
Qed.

Lemma nu_fold_m {A B} (xs : list A) (acc : B) (body : B -> A -> M B) :
  (forall a x, no_undefined (body a x)) -> no_undefined (fold_m xs acc body).
Proof.
  intros Hb. revert acc. induction xs as [|x xs IH]; intros acc; cbn [fold_m].
  - apply nu_ret.
  - apply nu_bind; auto.
Qed.

Lemma nu_print s : no_undefined (print s).
Proof. intros w0 e w1 H. discriminate. Qed.

Lemma nu_request net q : no_undefined (request net q).
Proof. intros w0 e w1 H. discriminate. Qed.

Lemma nu_raise_for_status r : no_undefined (raise_for_status r).
Proof.
  unfold raise_for_status. destruct (is_error_status _).
  - apply nu_raise. discriminate.
  - apply nu_ret.
Qed.

Lemma nu_resp_json r : no_undefined (resp_json r).
Proof.
  unfold resp_json. destruct (body r).
  - apply nu_ret.
  - apply nu_raise. discriminate.
Qed.

Lemma getitem_not_undefined j k e : getitem j k = Err e -> e <> UndefinedError.
Proof.
  unfold getitem. destruct j; try (intros H; inversion H; discriminate).
  destruct (assoc_last k _); intros H; inversion H; discriminate.
Qed.

Lemma nu_getitem j k : no_undefined (lift (getitem j k)).
Proof. apply nu_lift. apply getitem_not_undefined. Qed.

Lemma nu_prune net hdrs records : no_undefined (prune net hdrs records).
Proof.
  unfold prune. apply nu_for_each. intros r. unfold prune_one.
  apply nu_bind; [apply nu_print|]. intros _.
  apply nu_bind; [apply nu_request|]. intros resp.
  destruct (_ =? 404)%Z; [apply nu_print|].
  apply nu_bind; [apply nu_raise_for_status|]. intros _.
  apply nu_bind; [apply nu_resp_json|]. intros j.
  apply nu_bind; [apply nu_getitem|]. intros rid.
  apply nu_bind; [apply nu_request|]. intros resp2.
  apply nu_raise_for_status.
Qed.

Lemma nu_fetch_images net hdrs : no_undefined (fetch_images net hdrs).
Proof.
  unfold fetch_images. apply nu_fold_m. intros ci c. unfold fetch_container.
  destruct (Py.split "/" c) as [|org [|name [|x rest]]];
    try (apply nu_raise; discriminate).
  apply nu_bind; [apply nu_request|]. intros resp.
  apply nu_bind; [apply nu_raise_for_status|]. intros _.
  apply nu_bind; [apply nu_resp_json|]. intros j.
  apply nu_bind; [apply nu_lift; destruct j; cbn; intros e H; inversion H; discriminate|].
  intros imgs. apply nu_fold_m. intros a image.
  apply nu_bind; [apply nu_getitem|]. intros nm.
  apply nu_bind; [apply nu_getitem|]. intros url. apply nu_ret.
Qed.

Lemma nu_get_token env : no_undefined (get_token env).
Proof.
  unfold get_token. destruct env; [apply nu_ret|apply nu_raise; discriminate].
Qed.

Lemma nu_load_records : no_undefined load_records.
Proof.
  intros w0 e w1 H. unfold load_records in H. inversion H.
  destruct (w_json w0); cbn in *; congruence.
Qed.

Lemma nu_add_record parse_date args records :
  no_undefined (lift (add_record parse_date args records)).
Proof.
  apply nu_lift. unfold add_record. intros e.
  destruct (Py.truthy _); [|discriminate].
  destruct (_ || _); [intros H; inversion H; discriminate|].
  destruct (parse_date _); [discriminate|intros H; inversion H; discriminate].
Qed.

(** What a raising step does to [index.html]: an [UndefinedError] leaves a
    text starting with the page head, any other error the old file. *)
Definition html_on_err {A} (m : M A) : Prop :=
  forall w0 e w1, m w0 = (Err e, w1) ->
    (e = UndefinedError -> exists t, w_html w1 = Some (page_head ++ t)) /\
    (e <> UndefinedError -> w_html w1 = w_html w0).

Lemma html_on_err_bind net {A B} (m : M A) (k : A -> M B) :
  stops net m -> no_undefined m -> (forall a, html_on_err (k a)) ->
  html_on_err (bind m k).
Proof.
  intros Hs Hn Hk w0 e w1 H. unfold bind in H.
  destruct (m w0) as [[a|e'] wa] eqn:E.
  - destruct (Hs _ _ _ E) as (_ & Hh & _).
    destruct (Hk a _ _ _ H) as [H1 H2]. split; [exact H1|].
    intros He. rewrite (H2 He). exact Hh.
  - inversion H. subst. destruct (Hs _ _ _ E) as (_ & Hh & _).
    split; [intros ->; destruct (Hn _ _ _ E eq_refl)|]. intros _. exact Hh.
Qed.

Lemma dump_head s l : exists t, fst (dump (Some s :: l)) = s ++ t.
Proof. cbn. destruct (dump l) as [t ok]. exists t. reflexivity. Qed.

Lemma html_on_err_write ci n rows records now :
  html_on_err (write_html (render ci n rows) ;;; write_json records now).
Proof.
  intros w0 e w1 H. unfold bind, write_html in H.
  set (rest := Some (Py.str_of_Z n) :: Some table_head
               :: (flat_map (row_chunks ci) rows ++ [Some page_foot])%list).
  change (render ci n rows) with (Some page_head :: rest) in H.
  destruct (dump_head page_head rest) as [t Ht].
  destruct (dump (Some page_head :: rest)) as [t' ok] eqn:E.
  destruct ok; [unfold write_json in H; discriminate|].
  inversion H. subst. split; [|intros Hne; destruct (Hne eq_refl)].
  intros _. exists t. cbn in Ht. cbn. rewrite Ht. reflexivity.
Qed.

Lemma main_err_html net parse_date args env now w0 e w1 :
  main net parse_date args env now w0 = (Err e, w1) ->
  e <> UndefinedError -> w_html w1 = w_html w0.
Proof.
  revert w0 e w1. unfold main, after_load.
  apply (html_on_err_bind net); [apply stops_get_token|apply nu_get_token|]. intros token.
  apply (html_on_err_bind net); [apply stops_load_records|apply nu_load_records|]. intros l.
  apply (html_on_err_bind net); [apply stops_lift|apply nu_add_record|]. intros records.
  cbv zeta.
  apply (html_on_err_bind net); [apply stops_prune|apply nu_prune|]. intros _.
  apply (html_on_err_bind net); [apply stops_fetch_images|apply nu_fetch_images|]. intros ci.
  apply html_on_err_write.
Qed.

Lemma bind_err_inv {A B} (m : M A) (k : A -> M B) w e w1 :
  bind m k w = (Err e, w1) ->
  m w = (Err e, w1) \/ exists a w', m w = (Ok a, w') /\ k a w' = (Err e, w1).
Proof.
  unfold bind. destruct (m w) as [[a|e'] w'].
  - intros H. right. eauto.
  - intros H. left. inversion H. reflexivity.
Qed.

Lemma concat_cons (s : string) ss : String.concat "" (s :: ss) = s ++ String.concat "" ss.
Proof. destruct ss; cbn; [rewrite str_app_nil|]; reflexivity. Qed.

(** A stream that raises has written exactly the chunks before the first
    raising one. *)
Lemma dump_fail l t :
  dump l = (t, false) ->
  exists ss rest, l = (map Some ss ++ None :: rest)%list /\ t = String.concat "" ss.
Proof.
  revert t. induction l as [|c l IH]; intros t H; [discriminate|].
  destruct c as [s|].
  - cbn in H. destruct (dump l) as [t' ok] eqn:E. inversion H. subst.
    destruct (IH t' eq_refl) as (ss & rest & -> & ->).
    exists (s :: ss), rest. rewrite concat_cons. auto.
  - cbn in H. inversion H. subst. exists [], l. auto.
Qed.

Ltac no_undef_step H a w Hm lem :=
  apply bind_err_inv in H; destruct H as [Hm|(a & w & Hm & H)];
  [destruct (lem _ _ _ Hm eq_refl)|cbv beta in H].

(** A run that raises has left [index.html] as it was, unless the error is
    the [UndefinedError] of rendering a builder cell.  Then every step before
    the page went through, and the file has been truncated and now holds
    exactly the chunks the template stream produced before the failing one
    (the old page is gone, and [index.json] is not updated, see
    [failed_run_keeps_state_file]). *)
Theorem failed_run_and_page net parse_date args env now w0 e w1 :
  main net parse_date args env now w0 = (Err e, w1) ->
  (e = UndefinedError ->
   exists token loaded records w2 w3 ci ss rest,
     env = Some token /\
     load_json (w_json w0) = Ok loaded /\
     add_record parse_date args loaded = Ok records /\
     prune net (headers token) records w0 = (Ok tt, w2) /\
     fetch_images net (headers token) w2 = (Ok ci, w3) /\
     render ci RETAIN (rev (mk_rows (Py.slice_from records (- RETAIN))))
     = (map Some ss ++ None :: rest)%list /\
     w_html w1 = Some (String.concat "" ss)) /\
  (e <> UndefinedError -> w_html w1 = w_html w0).
Proof.
  intros H. split; [|exact (main_err_html _ _ _ _ _ _ _ _ H)].
  intros ->. unfold main, after_load in H.
  no_undef_step H token wa Hm (nu_get_token env). apply get_token_ok_inv in Hm as [Htok ->].
  no_undef_step H loaded wb Hm nu_load_records. apply load_records_ok_inv in Hm as [Hload ->].
  no_undef_step H records wc Hm (nu_add_record parse_date args loaded).
  apply lift_ok_inv in Hm as [Hadd ->].
  cbv zeta in H.
  no_undef_step H u w2 Hprune (nu_prune net (headers token) records). destruct u.
  no_undef_step H ci w3 Hfetch (nu_fetch_images net (headers token)).
  destruct (bind_err_inv _ _ _ _ _ H) as [Hw|(u & w4 & _ & Hw)];
    [|unfold write_json in Hw; discriminate].
  unfold write_html in Hw.
  destruct (dump (render ci RETAIN (rev (mk_rows (Py.slice_from records (- RETAIN))))))
    as [t ok] eqn:Hd.
  destruct ok; [discriminate|]. inversion Hw. subst w1.
  destruct (dump_fail _ _ Hd) as (ss & rest & Hr & ->).
  exists token, loaded, records, w2, w3, ci, ss, rest. repeat split; auto.
Qed.

Lemma failed_run_and_page_witness :
  (UndefinedError = UndefinedError ->
   exists token loaded records w2 w3 ci ss rest,
     Some "t" = Some token /\
     load_json (w_json Sample.world_bad_builder) = Ok loaded /\
     add_record Sample.date_id Sample.no_args loaded = Ok records /\
     prune Sample.net_ok (headers token) records Sample.world_bad_builder = (Ok tt, w2) /\
     fetch_images Sample.net_ok (headers token) w2 = (Ok ci, w3) /\
     render ci RETAIN (rev (mk_rows (Py.slice_from records (- RETAIN))))
     = (map Some ss ++ None :: rest)%list /\
     w_html (snd Sample.run_bad_builder) = Some (String.concat "" ss)) /\
  (UndefinedError <> UndefinedError ->
   w_html (snd Sample.run_bad_builder) = w_html Sample.world_bad_builder).
Proof.
  apply (failed_run_and_page Sample.net_ok Sample.date_id Sample.no_args (Some "t") 2
           Sample.world_bad_builder).
  vm_compute. reflexivity.
Defined.

(** ** Download links of the page *)

Lemma dump_app_ok l1 l2 t :
  dump (l1 ++ l2) = (t, true) ->
  exists t1 t2, dump l1 = (t1, true) /\ dump l2 = (t2, true) /\ t = t1 ++ t2.
Proof.
  revert t. induction l1 as [|c l1 IH]; intros t H.
  - exists "", t. auto.
  - destruct c as [s|]; cbn in H; [|discriminate].
    destruct (dump (l1 ++ l2)) as [t' ok] eqn:E. inversion H. subst.
    destruct (IH t' eq_refl) as (t1 & t2 & H1 & H2 & ->).
    exists (s ++ t1), t2. cbn. rewrite H1. rewrite str_app_assoc. auto.
Qed.

Lemma dump_link l1 l2 t P pk s Q :
  dump (l1 ++ [Some (P ++ download_url); Some pk; Some s; Some pk; Some (".zip" ++ Q)]
           ++ l2) = (t, true) ->
  exists pre post, t ++ nl = pre ++ download_url ++ pk ++ s ++ pk ++ ".zip" ++ post.
Proof.
  intros H. apply dump_app_ok in H as (t1 & t2 & _ & H & ->).
  apply dump_app_ok in H as (t5 & t3 & H5 & _ & ->).
  cbn in H5. inversion H5. subst.
  exists (t1 ++ P), (Q ++ t3 ++ nl).
  rewrite str_app_nil. rewrite !str_app_assoc. reflexivity.
Qed.

Lemma render_has_row ci n rows row :
  In row rows -> exists L1 L2, render ci n rows = (L1 ++ row_chunks ci row ++ L2)%list.
Proof.
  intros Hin. apply in_split in Hin as (A & B & ->).
  exists ([Some page_head; Some (Py.str_of_Z n); Some table_head] ++ flat_map (row_chunks ci) A)%list,
         (flat_map (row_chunks ci) B ++ [Some page_foot])%list.
  unfold render. rewrite flat_map_app. cbn [flat_map]. rewrite !app_assoc. reflexivity.
Qed.

Lemma row_source_link ci row : exists R1 P Q R2,
  row_chunks ci row =
  (R1 ++ [Some (P ++ download_url)%string; Some (r_pkgver row); Some "/openslide-winbuild-";
          Some (r_pkgver row); Some (".zip" ++ Q)%string] ++ R2)%list.
Proof.
  exists (firstn 12 (row_chunks ci row)). do 2 eexists.
  exists (skipn 17 (row_chunks ci row)).
  unfold row_chunks. cbn [firstn skipn app]. reflexivity.
Qed.

Lemma row_win64_link ci row : exists R1 P Q R2,
  row_chunks ci row =
  (R1 ++ [Some (P ++ download_url)%string; Some (r_pkgver row); Some "/openslide-win64-";
          Some (r_pkgver row); Some (".zip" ++ Q)%string] ++ R2)%list.
Proof.
  destruct (r_win32 row) eqn:E.
  - exists (firstn 22 (row_chunks ci row)). do 2 eexists. exists [].
    unfold row_chunks. rewrite E. cbn [firstn skipn app]. reflexivity.
  - exists (firstn 17 (row_chunks ci row)). do 2 eexists. exists [].
    unfold row_chunks. rewrite E. cbn [firstn skipn app]. reflexivity.
Qed.

Lemma row_win32_link ci row : r_win32 row = true -> exists R1 P Q R2,
  row_chunks ci row =
  (R1 ++ [Some (P ++ download_url)%string; Some (r_pkgver row); Some "/openslide-win32-";
          Some (r_pkgver row); Some (".zip" ++ Q)%string] ++ R2)%list.
Proof.
  intros E. exists (firstn 17 (row_chunks ci row)). do 2 eexists.
  exists (skipn 22 (row_chunks ci row)).
  unfold row_chunks. rewrite E. cbn [firstn skipn app]. reflexivity.
Qed.

Lemma app_mid {A} (L1 R1 F R2 L2 : list A) :
  (L1 ++ (R1 ++ F ++ R2) ++ L2 = (L1 ++ R1) ++ F ++ (R2 ++ L2))%list.
Proof. rewrite !app_assoc. reflexivity. Qed.

(** The page a completed run writes links, for every record kept in
    [index.json], the source zip and the Windows 64-bit zip of the release
    [windows-<pkgver>], and the Windows 32-bit zip when the record has
    [win32] set to true. *)
Theorem page_links_downloads net parse_date args env now w0 w1 loaded records rec :
  main net parse_date args env now w0 = (Ok tt, w1) ->
  load_json (w_json w0) = Ok loaded ->
  add_record parse_date args loaded = Ok records ->
  In rec (Py.slice_from records (- RETAIN)) ->
  (exists pre post, w_html w1 = Some (pre ++ download_url ++ pkgver rec
     ++ "/openslide-winbuild-" ++ pkgver rec ++ ".zip" ++ post)) /\
  (exists pre post, w_html w1 = Some (pre ++ download_url ++ pkgver rec
     ++ "/openslide-win64-" ++ pkgver rec ++ ".zip" ++ post)) /\
  (win32 rec = Some true ->
   exists pre post, w_html w1 = Some (pre ++ download_url ++ pkgver rec
     ++ "/openslide-win32-" ++ pkgver rec ++ ".zip" ++ post)).
Proof.
  intros H Hload Hadd Hin.
  destruct (main_ok_inv _ _ _ _ _ _ _ H)
    as (token & loaded' & records' & w2 & w3 & ci & t & _ & Hload' & Hadd' & _ & _
        & Hdump & ->).
  rewrite Hload in Hload'. inversion Hload'. subst loaded'.
  rewrite Hadd in Hadd'. inversion Hadd'. subst records'.
  destruct (in_rows_from None _ _ Hin) as [p Hp].
  assert (Hr : In (row_of p rec) (rev (mk_rows (Py.slice_from records (- RETAIN))))).
  { apply in_rev. rewrite rev_involutive. exact Hp. }
  destruct (render_has_row ci RETAIN _ _ Hr) as (L1 & L2 & HL). rewrite HL in Hdump.
  cbn [w_html set_json set_html].
  split; [|split; [|intros Hw]].
  - destruct (row_source_link ci (row_of p rec)) as (R1 & P & Q & R2 & HR).
    rewrite HR, app_mid in Hdump.
    destruct (dump_link _ _ _ _ _ _ _ Hdump) as (pre & post & E).
    exists pre, post. rewrite E. reflexivity.
  - destruct (row_win64_link ci (row_of p rec)) as (R1 & P & Q & R2 & HR).
    rewrite HR, app_mid in Hdump.
    destruct (dump_link _ _ _ _ _ _ _ Hdump) as (pre & post & E).
    exists pre, post. rewrite E. reflexivity.
  - assert (Hw' : r_win32 (row_of p rec) = true) by (cbn; rewrite Hw; reflexivity).
    destruct (row_win32_link ci (row_of p rec) Hw') as (R1 & P & Q & R2 & HR).
    rewrite HR, app_mid in Hdump.
    destruct (dump_link _ _ _ _ _ _ _ Hdump) as (pre & post & E).
    exists pre, post. rewrite E. reflexivity.
Qed.

Lemma page_links_downloads_witness :
  (exists pre post, w_html (snd Sample.run1) = Some (pre ++ download_url ++ "0"
     ++ "/openslide-winbuild-" ++ "0" ++ ".zip" ++ post)) /\
  (exists pre post, w_html (snd Sample.run1) = Some (pre ++ download_url ++ "0"
     ++ "/openslide-win64-" ++ "0" ++ ".zip" ++ post)) /\
  (None = Some true ->
   exists pre post, w_html (snd Sample.run1) = Some (pre ++ download_url ++ "0"
     ++ "/openslide-win32-" ++ "0" ++ ".zip" ++ post)).
Proof.
  apply (page_links_downloads Sample.net_ok Sample.date_id Sample.new_args (Some "t") 2
           Sample.world1 (snd Sample.run1) [Sample.bld "0"]
           [Sample.bld "0"; Sample.new_rec]
           (Sample.bld "0")).
  - vm_compute. reflexivity.
  - reflexivity.
  - vm_compute. reflexivity.
  - vm_compute. left. reflexivity.
Defined.

(** ** What a completed run prints *)

Lemma no_output_ret {A} (a : A) : no_output (ret a).
Proof. intros w0 r w1 H. inversion H. reflexivity. Qed.

Lemma no_output_raise {A} e : no_output (raise (A := A) e).
Proof. intros w0 r w1 H. inversion H. reflexivity. Qed.

Lemma no_output_lift {A} (r : Result A) : no_output (lift r).
Proof. intros w0 r' w1 H. inversion H. reflexivity. Qed.

Lemma no_output_request net q : no_output (request net q).
Proof. intros w0 r w1 H. inversion H. reflexivity. Qed.

Lemma no_output_bind {A B} (m : M A) (k : A -> M B) :
  no_output m -> (forall a, no_output (k a)) -> no_output (bind m k).
Proof.
  intros Hm Hk w0 r w1 H. unfold bind in H.
  destruct (m w0) as [[a|e] wa] eqn:E.
  - rewrite (Hk a _ _ _ H). exact (Hm _ _ _ E).
  - inversion H. subst. exact (Hm _ _ _ E).
Qed.

Lemma no_output_fold_m {A B} (xs : list A) (acc : B) (body : B -> A -> M B) :
  (forall a x, no_output (body a x)) -> no_output (fold_m xs acc body).
Proof.
  intros Hb. revert acc. induction xs as [|x xs IH]; intros acc; cbn [fold_m].
  - apply no_output_ret.
  - apply no_output_bind; auto.
Qed.

Lemma no_output_raise_for_status r : no_output (raise_for_status r).
Proof.
  unfold raise_for_status. destruct (is_error_status _);
    [apply no_output_raise|apply no_output_ret].
Qed.

Lemma no_output_resp_json r : no_output (resp_json r).
Proof. unfold resp_json. destruct (body r); [apply no_output_ret|apply no_output_raise]. Qed.

Lemma no_output_fetch_images net hdrs : no_output (fetch_images net hdrs).
Proof.
  unfold fetch_images. apply no_output_fold_m. intros ci c. unfold fetch_container.
  destruct (Py.split "/" c) as [|org [|name [|x rest]]]; try apply no_output_raise.
  apply no_output_bind; [apply no_output_request|]. intros resp.
  apply no_output_bind; [apply no_output_raise_for_status|]. intros _.
  apply no_output_bind; [apply no_output_resp_json|]. intros j.
  apply no_output_bind; [apply no_output_lift|]. intros imgs.
  apply no_output_fold_m. intros a image.
  apply no_output_bind; [apply no_output_lift|]. intros nm.
  apply no_output_bind; [apply no_output_lift|]. intros url. apply no_output_ret.
Qed.

Lemma prune_one_log net hdrs r w w' :
  prune_one net hdrs r w = (Ok tt, w') ->
  w_stdout w' = (w_stdout w ++ prune_log_one net hdrs r)%list.
Proof.
  unfold prune_one, prune_log_one. intros H.
  inv_bind H u w1 Hm. apply print_inv in Hm as ->.
  inv_bind H resp w2 Hm. apply request_inv in Hm as [-> ->].
  destruct (status_code (net (GET (tag_url (pkgver r)) hdrs)) =? 404)%Z.
  - apply print_inv in H as ->. cbn. rewrite <- app_assoc. reflexivity.
  - inv_bind H u3 w3 Hm. apply raise_for_status_ok_inv in Hm as [_ ->].
    inv_bind H j w4 Hm. apply resp_json_ok_inv in Hm as [_ ->].
    inv_bind H rid w5 Hm. apply lift_ok_inv in Hm as [_ ->].
    inv_bind H resp2 w6 Hm. apply request_inv in Hm as [-> ->].
    apply raise_for_status_ok_inv in H as [_ ->].
    reflexivity.
Qed.

Lemma for_each_prune_log net hdrs xs w w' :
  for_each xs (prune_one net hdrs) w = (Ok tt, w') ->
  w_stdout w' = (w_stdout w ++ flat_map (prune_log_one net hdrs) xs)%list.
Proof.
  revert w. induction xs as [|x xs IH]; intros w H.
  - cbn in H. inversion H. subst. rewrite app_nil_r. reflexivity.
  - cbn in H. apply bind_ok_inv in H as ([] & w1 & H1 & H2).
    apply prune_one_log in H1. apply IH in H2.
    rewrite H2, H1. cbn [flat_map]. rewrite <- app_assoc. reflexivity.
Qed.

(** A run that completes prints, for each record beyond the newest 30 in
    list order, [Deleting <pkgver>...], followed by [...already gone] when
    the release-tag lookup answered 404; it prints nothing else. *)
Theorem completed_run_log net parse_date args token now w0 w1 loaded records :
  main net parse_date args (Some token) now w0 = (Ok tt, w1) ->
  load_json (w_json w0) = Ok loaded ->
  add_record parse_date args loaded = Ok records ->
  w_stdout w1 = (w_stdout w0 ++ flat_map (prune_log_one net (headers token))
                                  (firstn (length records - 30) records))%list.
Proof.
  intros H Hload Hadd.
  destruct (main_ok_inv _ _ _ _ _ _ _ H)
    as (token' & loaded' & records' & w2 & w3 & ci & t & Htok & Hload' & Hadd' & Hprune
        & Hfetch & _ & ->).
  inversion Htok. subst token'.
  rewrite Hload in Hload'. inversion Hload'. subst loaded'.
  rewrite Hadd in Hadd'. inversion Hadd'. subst records'.
  cbn [w_stdout set_json set_html].
  rewrite (no_output_fetch_images _ _ _ _ _ Hfetch).
  unfold prune in Hprune. rewrite slice_to_retain in Hprune.
  exact (for_each_prune_log _ _ _ _ _ Hprune).
Qed.

Lemma completed_run_log_witness :
  w_stdout (snd Sample.run_gone) =
  (w_stdout Sample.world_gone
   ++ flat_map (prune_log_one Sample.net_ok (headers "t"))
        (firstn (length (Sample.bld "x" :: Sample.thirty) - 30)
                (Sample.bld "x" :: Sample.thirty)))%list.
Proof.
  apply (completed_run_log Sample.net_ok Sample.date_id Sample.no_args "t" 2
           Sample.world_gone (snd Sample.run_gone) (Sample.bld "x" :: Sample.thirty)).
  - apply pair_fst. vm_compute. reflexivity.
  - reflexivity.
  - reflexivity.
Defined.

(** ** Repeated image names *)

Lemma fold_m_app {A B} (xs ys : list A) (acc : B) (body : B -> A -> M B) w :
  fold_m (xs ++ ys) acc body w = bind (fold_m xs acc body) (fun a => fold_m ys a body) w.
Proof.
  revert acc w. induction xs as [|x xs IH]; intros acc w; cbn [app fold_m].
  - reflexivity.
  - unfold bind. destruct (body acc x w) as [[a|e] w1]; [|reflexivity].
    rewrite IH. reflexivity.
Qed.

Lemma images_get_cons k v ci k' :
  images_get ((k, v) :: ci) k' = if String.eqb k k' then Some v else images_get ci k'.
Proof. unfold images_get. cbn. destruct (String.eqb k k'); reflexivity. Qed.

Lemma str_app_cancel (p a b : string) : p ++ a = p ++ b -> a = b.
Proof. induction p as [|x p IH]; cbn; [auto|]. intros H. inversion H. auto. Qed.

(** [container_images[ref] = image['html_url']] overwrites: when an image of
    a container listing is followed only by images of other names, the map
    built from that listing sends its reference to its [html_url], whatever
    came before it, another image of the same name included. *)
Theorem later_image_wins net hdrs ci c org name w ci' w' j pre image post nm url :
  Py.split "/" c = [org; name] ->
  body (net (GET (versions_url org name) hdrs)) = Some j ->
  py_iter j = Ok (pre ++ image :: post)%list ->
  getitem image "name" = Ok nm ->
  getitem image "html_url" = Ok url ->
  (forall image' nm', In image' post -> getitem image' "name" = Ok nm' ->
                      py_str nm' <> py_str nm) ->
  fetch_container net hdrs ci c w = (Ok ci', w') ->
  images_get ci' ("ghcr.io/" ++ org ++ "/" ++ name ++ "@" ++ py_str nm) = Some url.
Proof.
  intros Hs Hj Hit Hnm Hurl Hpost H. unfold fetch_container in H. rewrite Hs in H.
  inv_bind H resp w1 Hm. apply request_inv in Hm as [-> ->].
  inv_bind H u w2 Hm. apply raise_for_status_ok_inv in Hm as [_ ->].
  inv_bind H j' w3 Hm. apply resp_json_ok_inv in Hm as [Hj' ->].
  rewrite Hj in Hj'. inversion Hj'. subst j'.
  inv_bind H imgs w4 Hm. apply lift_ok_inv in Hm as [Himgs ->].
  rewrite Hit in Himgs. inversion Himgs. subst imgs.
  rewrite fold_m_app in H. inv_bind H a1 w5 Hpre. cbn [fold_m] in H.
  inv_bind H a2 w6 Hm.
  inv_bind Hm n w7 Hm1. apply lift_ok_inv in Hm1 as [Hn ->].
  rewrite Hnm in Hn. inversion Hn. subst n.
  inv_bind Hm v w8 Hm2. apply lift_ok_inv in Hm2 as [Hv ->].
  rewrite Hurl in Hv. inversion Hv. subst v.
  inversion Hm. subst a2.
  set (ref := "ghcr.io/" ++ org ++ "/" ++ name ++ "@" ++ py_str nm).
  refine (fold_m_inv (fun acc => images_get acc ref = Some url) post _ _ _ _ _ _ _ H).
  - rewrite images_get_cons, String.eqb_refl. reflexivity.
  - intros acc image' v v' acc' Hin Hacc Hb.
    inv_bind Hb nm' w9 Hb1. apply lift_ok_inv in Hb1 as [Hnm' ->].
    inv_bind Hb url' w10 Hb2. apply lift_ok_inv in Hb2 as [_ ->].
    inversion Hb. subst acc'.
    rewrite images_get_cons.
    destruct (String.eqb _ ref) eqn:E; [|exact Hacc].
    apply String.eqb_eq in E.
    assert (E' : ("ghcr.io/" ++ org ++ "/" ++ name ++ "@") ++ py_str nm'
                 = ("ghcr.io/" ++ org ++ "/" ++ name ++ "@") ++ py_str nm)
      by (rewrite !str_app_assoc; exact E).
    apply str_app_cancel in E'.
    destruct (Hpost image' nm' Hin Hnm' E').
Qed.

Lemma later_image_wins_witness :
  images_get [("ghcr.io/openslide/linux-builder@sha256:aa", JStr "u2");
              ("ghcr.io/openslide/linux-builder@sha256:aa", JStr "u1")]
    ("ghcr.io/" ++ "openslide" ++ "/" ++ "linux-builder" ++ "@" ++ py_str (JStr "sha256:aa"))
  = Some (JStr "u2").
Proof.
  apply (later_image_wins Sample.net_dup (headers "t") [] "openslide/linux-builder"
           "openslide" "linux-builder" Sample.world_empty
           [("ghcr.io/openslide/linux-builder@sha256:aa", JStr "u2");
            ("ghcr.io/openslide/linux-builder@sha256:aa", JStr "u1")]
           (snd (fetch_container Sample.net_dup (headers "t") [] "openslide/linux-builder"
                   Sample.world_empty))
           (JArr [Sample.img "sha256:aa" "u1"; Sample.img "sha256:aa" "u2"])
           [Sample.img "sha256:aa" "u1"] (Sample.img "sha256:aa" "u2") []
           (JStr "sha256:aa") (JStr "u2")).
  - reflexivity.
  - vm_compute. reflexivity.
  - reflexivity.
  - reflexivity.
  - reflexivity.
  - intros image' nm' [].
  - apply pair_fst. vm_compute. reflexivity.
Defined.

(** ** Compare links between consecutive builds *)

Lemma page_has_chunk ci n rows row t R1 s R2 :
  dump (render ci n rows) = (t, true) -> In row rows ->
  row_chunks ci row = (R1 ++ [Some s] ++ R2)%list ->
  exists pre post, t ++ nl = pre ++ s ++ post.
Proof.
  intros H Hin HR. destruct (render_has_row ci n rows row Hin) as (L1 & L2 & HL).
  rewrite HL, HR, app_mid in H.
  apply dump_app_ok in H as (t1 & t2 & _ & H & ->).
  apply dump_app_ok in H as (t5 & t3 & H5 & _ & ->).
  cbn in H5. inversion H5. subst.
  exists t1, (t3 ++ nl). rewrite str_app_nil, !str_app_assoc. reflexivity.
Qed.

Lemma revision_link_compare repo p cur :
  Py.truthy (Some p) = true ->
  exists pre post, revision_link repo (Some p) cur =
    pre ++ "https://github.com/openslide/" ++ repo ++ "/compare/" ++ Py.take 8 p
    ++ "..." ++ Py.take 8 cur ++ post.
Proof.
  intros Ht. unfold revision_link. rewrite Ht.
  exists ("
  " ++ dq "
    <a href=`"). eexists.
  rewrite !str_app_assoc. reflexivity.
Qed.

Lemma row_revision_chunks ci row :
  (exists R1 R2, row_chunks ci row =
     (R1 ++ [Some (revision_link "openslide" (r_openslide_prev row) (r_openslide_cur row))]
         ++ R2)%list) /\
  (exists R1 R2, row_chunks ci row =
     (R1 ++ [Some (revision_link "openslide-java" (r_java_prev row) (r_java_cur row))]
         ++ R2)%list) /\
  (exists R1 R2, row_chunks ci row =
     (R1 ++ [Some (revision_link "openslide-winbuild" (r_winbuild_prev row)
                                 (r_winbuild_cur row))] ++ R2)%list).
Proof.
  split; [|split].
  - exists (firstn 3 (row_chunks ci row)), (skipn 4 (row_chunks ci row)). reflexivity.
  - exists (firstn 5 (row_chunks ci row)), (skipn 6 (row_chunks ci row)). reflexivity.
  - exists (firstn 7 (row_chunks ci row)), (skipn 8 (row_chunks ci row)). reflexivity.
Qed.

Lemma compare_in_page ci rows row t repo p cur R1 R2 :
  dump (render ci RETAIN rows) = (t, true) -> In row rows ->
  row_chunks ci row = (R1 ++ [Some (revision_link repo (Some p) cur)] ++ R2)%list ->
  p <> "" ->
  exists pre post, t ++ nl =
    pre ++ "https://github.com/openslide/" ++ repo ++ "/compare/" ++ Py.take 8 p
    ++ "..." ++ Py.take 8 cur ++ post.
Proof.
  intros H Hin HR Hp.
  destruct (page_has_chunk _ _ _ _ _ _ _ _ H Hin HR) as (pre & post & E).
  destruct (revision_link_compare repo p cur) as (pre' & post' & E').
  { cbn. destruct (String.eqb p "") eqn:Ep; [|reflexivity].
    apply String.eqb_eq in Ep. contradiction. }
  rewrite E' in E. exists (pre ++ pre'), (post' ++ post).
  rewrite E, !str_app_assoc. reflexivity.
Qed.

Lemma prev_changed key p r : key r <> key p -> prev key (Some p) r = Some (key p).
Proof.
  intros H. unfold prev. destruct (String.eqb (key r) (key p)) eqn:E; [|reflexivity].
  apply String.eqb_eq in E. contradiction.
Qed.

(** Of two consecutive records kept in [index.json], when the newer one
    changed the commit of [openslide], [openslide-java] or
    [openslide-winbuild] and the older commit is not empty, the page links
    the GitHub compare view from the first 8 characters of the older commit
    to the first 8 of the newer one. *)
Theorem page_compare_links net parse_date args env now w0 w1 loaded records j p r :
  main net parse_date args env now w0 = (Ok tt, w1) ->
  load_json (w_json w0) = Ok loaded ->
  add_record parse_date args loaded = Ok records ->
  nth_error (Py.slice_from records (- RETAIN)) j = Some p ->
  nth_error (Py.slice_from records (- RETAIN)) (S j) = Some r ->
  (openslide r <> openslide p -> openslide p <> "" ->
   exists pre post, w_html w1 = Some (pre ++ "https://github.com/openslide/openslide/compare/"
     ++ Py.take 8 (openslide p) ++ "..." ++ Py.take 8 (openslide r) ++ post)) /\
  (openslide_java r <> openslide_java p -> openslide_java p <> "" ->
   exists pre post, w_html w1 = Some (pre
     ++ "https://github.com/openslide/openslide-java/compare/"
     ++ Py.take 8 (openslide_java p) ++ "..." ++ Py.take 8 (openslide_java r) ++ post)) /\
  (openslide_winbuild r <> openslide_winbuild p -> openslide_winbuild p <> "" ->
   exists pre post, w_html w1 = Some (pre
     ++ "https://github.com/openslide/openslide-winbuild/compare/"
     ++ Py.take 8 (openslide_winbuild p) ++ "..." ++ Py.take 8 (openslide_winbuild r) ++ post)).
Proof.
  intros H Hload Hadd Hp Hr.
  destruct (main_ok_inv _ _ _ _ _ _ _ H)
    as (token & loaded' & records' & w2 & w3 & ci & t & _ & Hload' & Hadd' & _ & _
        & Hdump & ->).
  rewrite Hload in Hload'. inversion Hload'. subst loaded'.
  rewrite Hadd in Hadd'. inversion Hadd'. subst records'.
  set (kept := Py.slice_from records (- RETAIN)) in *.
  pose proof (nth_error_rows_from_prev None kept (S j) r Hr) as Hrow.
  cbv beta iota in Hrow. rewrite Hp in Hrow.
  assert (Hin : In (row_of (Some p) r) (rev (mk_rows kept))).
  { apply in_rev. rewrite rev_involutive. exact (nth_error_In _ _ Hrow). }
  destruct (row_revision_chunks ci (row_of (Some p) r))
    as ((A1 & A2 & HA) & (B1 & B2 & HB) & (C1 & C2 & HC)).
  cbn [w_html set_json set_html].
  split; [|split]; intros Hne Hnz.
  - cbn [r_openslide_prev r_openslide_cur row_of] in HA.
    rewrite (prev_changed openslide p r Hne) in HA.
    destruct (compare_in_page _ _ _ _ _ _ _ _ _ Hdump Hin HA Hnz) as (pre & post & E).
    exists pre, post. rewrite E. reflexivity.
  - cbn [r_java_prev r_java_cur row_of] in HB.
    rewrite (prev_changed openslide_java p r Hne) in HB.
    destruct (compare_in_page _ _ _ _ _ _ _ _ _ Hdump Hin HB Hnz) as (pre & post & E).
    exists pre, post. rewrite E. reflexivity.
  - cbn [r_winbuild_prev r_winbuild_cur row_of] in HC.
    rewrite (prev_changed openslide_winbuild p r Hne) in HC.
    destruct (compare_in_page _ _ _ _ _ _ _ _ _ Hdump Hin HC Hnz) as (pre & post & E).
    exists pre, post. rewrite E. reflexivity.
Qed.

Lemma page_compare_links_witness :
  (openslide Sample.new_rec <> openslide (Sample.bld "0") -> openslide (Sample.bld "0") <> "" ->
   exists pre post, w_html (snd Sample.run1) = Some (pre
     ++ "https://github.com/openslide/openslide/compare/"
     ++ Py.take 8 (openslide (Sample.bld "0")) ++ "..." ++ Py.take 8 (openslide Sample.new_rec) ++ post)) /\
  (openslide_java Sample.new_rec <> openslide_java (Sample.bld "0") -> openslide_java (Sample.bld "0") <> "" ->
   exists pre post, w_html (snd Sample.run1) = Some (pre
     ++ "https://github.com/openslide/openslide-java/compare/"
     ++ Py.take 8 (openslide_java (Sample.bld "0")) ++ "..." ++ Py.take 8 (openslide_java Sample.new_rec) ++ post)) /\
  (openslide_winbuild Sample.new_rec <> openslide_winbuild (Sample.bld "0") -> openslide_winbuild (Sample.bld "0") <> "" ->
   exists pre post, w_html (snd Sample.run1) = Some (pre
     ++ "https://github.com/openslide/openslide-winbuild/compare/"
     ++ Py.take 8 (openslide_winbuild (Sample.bld "0")) ++ "..." ++ Py.take 8 (openslide_winbuild Sample.new_rec)
     ++ post)).
Proof.
  apply (page_compare_links Sample.net_ok Sample.date_id Sample.new_args (Some "t") 2
           Sample.world1 (snd Sample.run1) [Sample.bld "0"] [Sample.bld "0"; Sample.new_rec] 0
           (Sample.bld "0") Sample.new_rec).
  - vm_compute. reflexivity.
  - reflexivity.
  - vm_compute. reflexivity.
  - vm_compute. reflexivity.
  - vm_compute. reflexivity.
Defined.
